(** * A shallow embedding of [adrd/nn/resnet3d.py]

    The file assembles a 3D residual network out of the layer primitives of
    an external tensor framework.  The embedding keeps the three levels of
    the source apart:

    - the _structure_ of the network (which layers, with which configuration
      and which parameter initialisation), built by the constructors;
    - the _forward pass_, written in a state-and-error monad over a store of
      tensors, because the source uses in-place operations
      ([nn.ReLU(inplace=True)], [out += residual]);
    - the _framework_, which is external: it is an interface ([TensorOps]),
      instantiated further down with the framework's shape arithmetic. *)

From stdpp Require Import base option list list_numbers strings.
From Stdlib Require Import ZArith Lia.

Local Open Scope string_scope.
Local Open Scope list_scope.
Local Open Scope Z_scope.

(** ** Exceptions and the error monad *)

Inductive Error : Type :=
| ZeroDivisionError
| AttributeError (cls attr : string)
| IndexError
| TypeError
| RuntimeError
| ValueError.

Inductive Result (A : Type) : Type :=
| Ok (a : A)
| Raise (e : Error).
Arguments Ok {A} a.
Arguments Raise {A} e.

#[global] Instance Result_ret : MRet Result := fun _ a => Ok a.
#[global] Instance Result_bind : MBind Result := fun _ _ k m =>
  match m with
  | Ok a => k a
  | Raise e => Raise e
  end.

#[global] Instance Result_fmap : FMap Result := fun _ _ f m =>
  match m with
  | Ok a => Ok (f a)
  | Raise e => Raise e
  end.

(** Python's [a // b] on integers: floor division, raising on a zero
    divisor.  [Z.div] rounds towards minus infinity, as Python does. *)
Definition floordiv (a b : Z) : Result Z :=
  if decide (b = 0) then Raise ZeroDivisionError else Ok (a / b).

(** [xs[i]] for a Python list and a non-negative literal index. *)
Definition index {A} (xs : list A) (i : nat) : Result A :=
  match xs !! i with
  | Some a => Ok a
  | None => Raise IndexError
  end.

(** [for x in xs: ...] with a body that may raise. *)
Fixpoint mapR {A B} (f : A → Result B) (xs : list A) : Result (list B) :=
  match xs with
  | [] => Ok []
  | x :: xs => y ← f x; ys ← mapR f xs; mret (y :: ys)
  end.

(** ** Layer primitives of the framework *)

(** How a parameter tensor was last filled.  The numbers drawn by a random
    initialiser are not modelled, only which initialiser ran. *)
Inductive Init : Type :=
| FrameworkDefault
| KaimingNormal (mode nonlinearity : string)
| Constant (c : Z).

Definition triple : Type := Z * Z * Z.

(** The framework turns an integer size argument into a 3-tuple. *)
Definition _triple (n : Z) : triple := (n, n, n).

Inductive ConvClass : Type := NnConv3d | Conv3DSimpleClass.

Module Conv3d.
Record t : Type := mk {
  cls : ConvClass;
  in_channels : Z;
  out_channels : Z;
  kernel_size : triple;
  stride : triple;
  padding : triple;
  weight : Init;
  bias : option Init
}.

(** [nn.Conv3d(in_channels, out_channels, kernel_size, stride, padding, bias)] *)
Definition init (in_channels out_channels : Z) (kernel_size stride padding : triple)
    (bias : bool) : t :=
  {| cls := NnConv3d;
     in_channels := in_channels;
     out_channels := out_channels;
     kernel_size := kernel_size;
     stride := stride;
     padding := padding;
     weight := FrameworkDefault;
     bias := if bias then Some FrameworkDefault else None |}.
End Conv3d.

Module BatchNorm3d.
Record t : Type := mk {
  num_features : Z;
  weight : Init;
  bias : Init
}.

(** [nn.BatchNorm3d(num_features)] *)
Definition init (num_features : Z) : t :=
  {| num_features := num_features;
     weight := FrameworkDefault;
     bias := FrameworkDefault |}.
End BatchNorm3d.

(** The leaf modules this file instantiates. *)
Inductive Layer : Type :=
| LConv (c : Conv3d.t)
| LBatchNorm (b : BatchNorm3d.t)
| LReLU (inplace : bool)
| LAdaptiveAvgPool3d (output_size : triple).

(** [nn.Sequential] of leaf modules. *)
Definition Sequential : Type := list Layer.

(** ** The tensor framework, as an interface *)

(** What the file consumes from the framework, on a tensor type [T]: each
    operation maps tensor values to a tensor value or raises.  [batch_norm]
    takes the module's [training] flag; its running statistics are buffers of
    the framework and are not modelled.  [add_ a b] is the value that [a]
    holds after [a += b]. *)
Class TensorOps (T : Type) : Type := {
  conv3d : Conv3d.t → T → Result T;
  batch_norm : bool → BatchNorm3d.t → T → Result T;
  relu_value : T → T;
  add_ : T → T → Result T;
  adaptive_avg_pool3d : triple → T → Result T;
  flatten : Z → T → Result T
}.

(** ** The store of tensors *)

(** A Python variable holds a reference to a tensor.  The store is the list
    of tensors allocated so far, a reference is a position in it: allocation
    appends, an in-place operation overwrites. *)
Definition ref : Set := nat.

Record St (T A : Type) : Type := mkSt { run : list T → Result (A * list T) }.
Arguments mkSt {T A} run.
Arguments run {T A} s h.

#[global] Instance St_ret T : MRet (St T) := fun _ a => mkSt (fun h => Ok (a, h)).
#[global] Instance St_bind T : MBind (St T) := fun _ _ k m =>
  mkSt (fun h =>
    match run m h with
    | Ok (a, h') => run (k a) h'
    | Raise e => Raise e
    end).

Section Store.
Context {T : Type}.

Definition load (x : ref) : St T T :=
  mkSt (fun h => match h !! x with
                 | Some v => Ok (v, h)
                 | None => Raise RuntimeError
                 end).

Definition alloc (v : T) : St T ref :=
  mkSt (fun h => Ok (length h, h ++ [v])).

Definition store (x : ref) (v : T) : St T unit :=
  mkSt (fun h => Ok (tt, <[x := v]> h)).

Definition lift {A} (r : Result A) : St T A :=
  mkSt (fun h => match r with
                 | Ok a => Ok (a, h)
                 | Raise e => Raise e
                 end).
End Store.

(** ** Forward pass of the leaf modules and of [nn.Sequential] *)

Section Forward.
Context {T : Type} `{!TensorOps T}.
Variable training : bool.

Definition Layer_forward (m : Layer) (x : ref) : St T ref :=
  match m with
  | LConv c => v ← load x; r ← lift (conv3d c v); alloc r
  | LBatchNorm b => v ← load x; r ← lift (batch_norm training b v); alloc r
  | LReLU inplace =>
      v ← load x;
      if inplace then store x (relu_value v);; mret x else alloc (relu_value v)
  | LAdaptiveAvgPool3d output_size =>
      v ← load x; r ← lift (adaptive_avg_pool3d output_size v); alloc r
  end.

Fixpoint Sequential_forward (ms : Sequential) (x : ref) : St T ref :=
  match ms with
  | [] => mret x
  | m :: ms => y ← Layer_forward m x; Sequential_forward ms y
  end.

(** [out += residual] *)
Definition iadd (out residual : ref) : St T ref :=
  a ← load out; b ← load residual; r ← lift (add_ a b);
  store out r;; mret out.

(** [x.flatten(start_dim)] *)
Definition Tensor_flatten (x : ref) (start_dim : Z) : St T ref :=
  v ← load x; r ← lift (flatten start_dim v); alloc r.
End Forward.

(** ** Conv3DSimple *)

(** A convolution builder is a class used in two ways: it is called with
    [(in_planes, out_planes, midplanes[, stride])], and its static method
    [get_downsample_stride] is read.  [None] for [stride] is an omitted
    argument, for which the builder's own default applies. *)
Record ConvBuilder : Type := {
  build : Z → Z → option Z → option Z → Conv3d.t;
  get_downsample_stride : Z → triple
}.

Module Conv3DSimple.
(** [Conv3DSimple.__init__]; [midplanes] is accepted and not used, [padding]
    is never passed by a caller in this file and keeps its default 1.  The
    integer [stride] and [padding] become 3-tuples in the framework. *)
Definition init (in_planes out_planes : Z) (midplanes : option Z)
    (stride : option Z) : Conv3d.t :=
  let stride := default 1 stride in
  let padding := 1 in
  {| Conv3d.cls := Conv3DSimpleClass;
     Conv3d.in_channels := in_planes;
     Conv3d.out_channels := out_planes;
     Conv3d.kernel_size := (3, 3, 3);
     Conv3d.stride := _triple stride;
     Conv3d.padding := _triple padding;
     Conv3d.weight := FrameworkDefault;
     Conv3d.bias := None |}.

Definition get_downsample_stride (stride : Z) : triple := (stride, stride, stride).

Definition builder : ConvBuilder :=
  Build_ConvBuilder init get_downsample_stride.
End Conv3DSimple.

(** ** Residual blocks *)

Module BasicBlock.
Definition expansion : Z := 1.

Record t : Type := mk {
  conv1 : Sequential;
  conv2 : Sequential;
  relu : Layer;
  downsample : option Sequential;
  stride : Z
}.

(** The mid-plane count of line 54. *)
Definition midplanes (inplanes planes : Z) : Result Z :=
  floordiv (inplanes * planes * 3 * 3 * 3) (inplanes * 3 * 3 + 3 * planes).

Definition init (inplanes planes : Z) (conv_builder : ConvBuilder)
    (stride : Z) (downsample : option Sequential) : Result t :=
  midplanes ← midplanes inplanes planes;
  mret {| conv1 := [ LConv (build conv_builder inplanes planes (Some midplanes) (Some stride));
                     LBatchNorm (BatchNorm3d.init planes);
                     LReLU true ];
          conv2 := [ LConv (build conv_builder planes planes (Some midplanes) None);
                     LBatchNorm (BatchNorm3d.init planes) ];
          relu := LReLU true;
          downsample := downsample;
          stride := stride |}.
Section Forward.
Context {T : Type} `{!TensorOps T}.
Variable training : bool.

Definition forward (self : t) (x : ref) : St T ref :=
  let residual := x in
  out ← Sequential_forward training (conv1 self) x;
  out ← Sequential_forward training (conv2 self) out;
  residual ← match downsample self with
             | Some downsample => Sequential_forward training downsample x
             | None => mret residual
             end;
  out ← iadd out residual;
  out ← Layer_forward training (relu self) out;
  mret out.
End Forward.
End BasicBlock.

Module Bottleneck.
Definition expansion : Z := 4.

Record t : Type := mk {
  conv1 : Sequential;
  conv2 : Sequential;
  conv3 : Sequential;
  relu : Layer;
  downsample : option Sequential;
  stride : Z
}.

(** The mid-plane count of line 90. *)
Definition midplanes (inplanes planes : Z) : Result Z :=
  floordiv (inplanes * planes * 3 * 3 * 3) (inplanes * 3 * 3 + 3 * planes).

Definition init (inplanes planes : Z) (conv_builder : ConvBuilder)
    (stride : Z) (downsample : option Sequential) : Result t :=
  midplanes ← midplanes inplanes planes;
  mret {| conv1 := [ LConv (Conv3d.init inplanes planes (_triple 1) (_triple 1) (_triple 0) false);
                     LBatchNorm (BatchNorm3d.init planes);
                     LReLU true ];
          conv2 := [ LConv (build conv_builder planes planes (Some midplanes) (Some stride));
                     LBatchNorm (BatchNorm3d.init planes);
                     LReLU true ];
          conv3 := [ LConv (Conv3d.init planes (planes * expansion) (_triple 1) (_triple 1) (_triple 0) false);
                     LBatchNorm (BatchNorm3d.init (planes * expansion)) ];
          relu := LReLU true;
          downsample := downsample;
          stride := stride |}.
Section Forward.
Context {T : Type} `{!TensorOps T}.
Variable training : bool.

Definition forward (self : t) (x : ref) : St T ref :=
  let residual := x in
  out ← Sequential_forward training (conv1 self) x;
  out ← Sequential_forward training (conv2 self) out;
  out ← Sequential_forward training (conv3 self) out;
  residual ← match downsample self with
             | Some downsample => Sequential_forward training downsample x
             | None => mret residual
             end;
  out ← iadd out residual;
  out ← Layer_forward training (relu self) out;
  mret out.
End Forward.

(** *** Attribute access

    What [m.<name>.weight] is for a Bottleneck [m].  The names a Bottleneck
    carries are the ones [__init__] binds ([conv1], [conv2], [conv3], [relu],
    [downsample], [stride]) and the class attribute [expansion]; any other
    name is an [AttributeError] on the block.  Of the bound ones only a leaf
    layer with parameters has a [weight]. *)
Definition Layer_set_weight (l : Layer) (v : Init) : Result Layer :=
  match l with
  | LConv c =>
      Ok (LConv {| Conv3d.cls := Conv3d.cls c;
                   Conv3d.in_channels := Conv3d.in_channels c;
                   Conv3d.out_channels := Conv3d.out_channels c;
                   Conv3d.kernel_size := Conv3d.kernel_size c;
                   Conv3d.stride := Conv3d.stride c;
                   Conv3d.padding := Conv3d.padding c;
                   Conv3d.weight := v;
                   Conv3d.bias := Conv3d.bias c |})
  | LBatchNorm b =>
      Ok (LBatchNorm {| BatchNorm3d.num_features := BatchNorm3d.num_features b;
                        BatchNorm3d.weight := v;
                        BatchNorm3d.bias := BatchNorm3d.bias b |})
  | LReLU _ => Raise (AttributeError "ReLU" "weight")
  | LAdaptiveAvgPool3d _ => Raise (AttributeError "AdaptiveAvgPool3d" "weight")
  end.

(** [nn.init.constant_(self.<name>.weight, c)], returning the block as it is
    afterwards. *)
Definition constant_attr_weight (self : t) (name : string) (c : Z) : Result t :=
  if decide (name = "relu") then
    l ← Layer_set_weight (relu self) (Constant c);
    mret {| conv1 := conv1 self; conv2 := conv2 self; conv3 := conv3 self;
            relu := l; downsample := downsample self; stride := stride self |}
  else if decide (name ∈ ["conv1"; "conv2"; "conv3"]) then
    Raise (AttributeError "Sequential" "weight")
  else if decide (name = "downsample") then
    Raise (AttributeError (match downsample self with
                           | Some _ => "Sequential"
                           | None => "NoneType"
                           end) "weight")
  else if decide (name ∈ ["stride"; "expansion"]) then
    Raise (AttributeError "int" "weight")
  else
    Raise (AttributeError "Bottleneck" name).
End Bottleneck.

(** The [block] argument of the assembler is one of the two classes. *)
Inductive BlockClass : Type := BasicBlockClass | BottleneckClass.

Inductive Block : Type :=
| Basic (b : BasicBlock.t)
| Bottle (b : Bottleneck.t).

Definition block_expansion (block : BlockClass) : Z :=
  match block with
  | BasicBlockClass => BasicBlock.expansion
  | BottleneckClass => Bottleneck.expansion
  end.

(** [block(inplanes, planes, conv_builder, stride, downsample)] *)
Definition block_init (block : BlockClass) (inplanes planes : Z)
    (conv_builder : ConvBuilder) (stride : Z) (downsample : option Sequential)
    : Result Block :=
  match block with
  | BasicBlockClass => Basic <$> BasicBlock.init inplanes planes conv_builder stride downsample
  | BottleneckClass => Bottle <$> Bottleneck.init inplanes planes conv_builder stride downsample
  end.

Section BlockForward.
Context {T : Type} `{!TensorOps T}.
Variable training : bool.

Definition Block_forward (m : Block) (x : ref) : St T ref :=
  match m with
  | Basic b => BasicBlock.forward training b x
  | Bottle b => Bottleneck.forward training b x
  end.

(** [nn.Sequential] of blocks: one stage. *)
Fixpoint Stage_forward (ms : list Block) (x : ref) : St T ref :=
  match ms with
  | [] => mret x
  | m :: ms => y ← Block_forward m x; Stage_forward ms y
  end.
End BlockForward.

(** ** BasicStem *)

Module BasicStem.
Definition init (_ : unit) : Sequential :=
  [ LConv (Conv3d.init 1 64 (7, 7, 7) (2, 2, 2) (3, 3, 3) false);
    LBatchNorm (BatchNorm3d.init 64);
    LReLU true ].
End BasicStem.

(** ** VideoResNet *)

(** [range(a, b)] *)
Definition range (a b : Z) : list Z := seqZ a (b - a).

Module VideoResNet.
Record t : Type := mk {
  inplanes : Z;
  stem : Sequential;
  layer1 : list Block;
  layer2 : list Block;
  layer3 : list Block;
  layer4 : list Block;
  avgpool : Layer
}.

(** [_make_layer] reads and writes [self.inplanes]: the running count is an
    argument and comes back with the stage. *)
Definition _make_layer (block : BlockClass) (conv_builder : ConvBuilder)
    (planes blocks stride : Z) (inplanes : Z) : Result (list Block * Z) :=
  let downsample :=
    if bool_decide (stride ≠ 1 ∨ inplanes ≠ planes * block_expansion block) then
      let ds_stride := get_downsample_stride conv_builder stride in
      Some [ LConv (Conv3d.init inplanes (planes * block_expansion block)
                      (_triple 1) ds_stride (_triple 0) false);
             LBatchNorm (BatchNorm3d.init (planes * block_expansion block)) ]
    else None in
  first ← block_init block inplanes planes conv_builder stride downsample;
  let inplanes := planes * block_expansion block in
  rest ← mapR (fun i => block_init block inplanes planes conv_builder 1 None)
              (range 1 blocks);
  mret (first :: rest, inplanes).

(** *** Weight initialisation *)

(** The body of the loop of [_initialize_weights] on one module.  Only leaf
    modules are instances of the classes it tests; there is no [nn.Linear]
    among the modules of this file. *)
Definition initialize_module (m : Layer) : Layer :=
  match m with
  | LConv c =>
      LConv {| Conv3d.cls := Conv3d.cls c;
               Conv3d.in_channels := Conv3d.in_channels c;
               Conv3d.out_channels := Conv3d.out_channels c;
               Conv3d.kernel_size := Conv3d.kernel_size c;
               Conv3d.stride := Conv3d.stride c;
               Conv3d.padding := Conv3d.padding c;
               Conv3d.weight := KaimingNormal "fan_out" "relu";
               Conv3d.bias := match Conv3d.bias c with
                              | Some _ => Some (Constant 0)
                              | None => None
                              end |}
  | LBatchNorm b =>
      LBatchNorm {| BatchNorm3d.num_features := BatchNorm3d.num_features b;
                    BatchNorm3d.weight := Constant 1;
                    BatchNorm3d.bias := Constant 0 |}
  | LReLU _ | LAdaptiveAvgPool3d _ => m
  end.

(** Applying a function to every leaf module below a container. *)
Definition map_Block (f : Layer → Layer) (m : Block) : Block :=
  match m with
  | Basic b =>
      Basic {| BasicBlock.conv1 := map f (BasicBlock.conv1 b);
               BasicBlock.conv2 := map f (BasicBlock.conv2 b);
               BasicBlock.relu := f (BasicBlock.relu b);
               BasicBlock.downsample := option_map (map f) (BasicBlock.downsample b);
               BasicBlock.stride := BasicBlock.stride b |}
  | Bottle b =>
      Bottle {| Bottleneck.conv1 := map f (Bottleneck.conv1 b);
                Bottleneck.conv2 := map f (Bottleneck.conv2 b);
                Bottleneck.conv3 := map f (Bottleneck.conv3 b);
                Bottleneck.relu := f (Bottleneck.relu b);
                Bottleneck.downsample := option_map (map f) (Bottleneck.downsample b);
                Bottleneck.stride := Bottleneck.stride b |}
  end.

Definition map_modules (f : Layer → Layer) (self : t) : t :=
  {| inplanes := inplanes self;
     stem := map f (stem self);
     layer1 := map (map_Block f) (layer1 self);
     layer2 := map (map_Block f) (layer2 self);
     layer3 := map (map_Block f) (layer3 self);
     layer4 := map (map_Block f) (layer4 self);
     avgpool := f (avgpool self) |}.

Definition _initialize_weights (self : t) : t :=
  map_modules initialize_module self.

(** The loop under [if zero_init_residual:].  Among the modules of the
    network only the blocks of the four stages can be Bottlenecks. *)
Definition zero_init_module (m : Block) : Result Block :=
  match m with
  | Bottle b => Bottle <$> Bottleneck.constant_attr_weight b "bn3" 0
  | Basic _ => Ok m
  end.

Definition zero_init_residual_loop (self : t) : Result t :=
  l1 ← mapR zero_init_module (layer1 self);
  l2 ← mapR zero_init_module (layer2 self);
  l3 ← mapR zero_init_module (layer3 self);
  l4 ← mapR zero_init_module (layer4 self);
  mret {| inplanes := inplanes self; stem := stem self;
          layer1 := l1; layer2 := l2; layer3 := l3; layer4 := l4;
          avgpool := avgpool self |}.

(** [VideoResNet.__init__] *)
Definition init (block : BlockClass) (conv_makers : list ConvBuilder)
    (layers : list Z) (stem : unit → Sequential) (num_classes : Z)
    (zero_init_residual : bool) : Result t :=
  let inplanes := 64 in
  let stem := stem tt in
  conv_maker ← index conv_makers 0; blocks ← index layers 0;
  '(layer1, inplanes) ← _make_layer block conv_maker 64 blocks 1 inplanes;
  conv_maker ← index conv_makers 1; blocks ← index layers 1;
  '(layer2, inplanes) ← _make_layer block conv_maker 128 blocks 2 inplanes;
  conv_maker ← index conv_makers 2; blocks ← index layers 2;
  '(layer3, inplanes) ← _make_layer block conv_maker 192 blocks 2 inplanes;
  conv_maker ← index conv_makers 3; blocks ← index layers 3;
  '(layer4, inplanes) ← _make_layer block conv_maker 256 blocks 2 inplanes;
  let avgpool := LAdaptiveAvgPool3d (1, 1, 1) in
  let self := _initialize_weights
                {| inplanes := inplanes; stem := stem;
                   layer1 := layer1; layer2 := layer2;
                   layer3 := layer3; layer4 := layer4;
                   avgpool := avgpool |} in
  if zero_init_residual then zero_init_residual_loop self else mret self.

Section Forward.
Context {T : Type} `{!TensorOps T}.
Variable training : bool.

Definition forward (self : t) (x : ref) : St T ref :=
  x ← Sequential_forward training (stem self) x;
  x ← Stage_forward training (layer1 self) x;
  x ← Stage_forward training (layer2 self) x;
  x ← Stage_forward training (layer3 self) x;
  x ← Stage_forward training (layer4 self) x;
  x ← Layer_forward training (avgpool self) x;
  x ← Tensor_flatten x 1;
  mret x.
End Forward.

(** *** [self.modules()]

    The modules of the network in the framework's order: a module, then the
    modules below each of its children in registration order. *)
Inductive AnyModule : Type :=
| MNet (m : t)
| MStage (m : list Block)
| MBlock (m : Block)
| MSequential (m : Sequential)
| MLayer (m : Layer).

Definition modules_Sequential (m : Sequential) : list AnyModule :=
  MSequential m :: map MLayer m.

Definition modules_downsample (m : option Sequential) : list AnyModule :=
  match m with
  | Some m => modules_Sequential m
  | None => []
  end.

Definition modules_Block (m : Block) : list AnyModule :=
  MBlock m ::
  match m with
  | Basic b =>
      modules_Sequential (BasicBlock.conv1 b) ++
      modules_Sequential (BasicBlock.conv2 b) ++
      [MLayer (BasicBlock.relu b)] ++
      modules_downsample (BasicBlock.downsample b)
  | Bottle b =>
      modules_Sequential (Bottleneck.conv1 b) ++
      modules_Sequential (Bottleneck.conv2 b) ++
      modules_Sequential (Bottleneck.conv3 b) ++
      [MLayer (Bottleneck.relu b)] ++
      modules_downsample (Bottleneck.downsample b)
  end.

Definition modules_Stage (m : list Block) : list AnyModule :=
  MStage m :: concat (map modules_Block m).

Definition modules (self : t) : list AnyModule :=
  MNet self ::
  modules_Sequential (stem self) ++
  modules_Stage (layer1 self) ++
  modules_Stage (layer2 self) ++
  modules_Stage (layer3 self) ++
  modules_Stage (layer4 self) ++
  [MLayer (avgpool self)].
End VideoResNet.

(** ** Entry points *)

(** The keyword arguments a caller can pass on to [VideoResNet]: each
    parameter of [VideoResNet.__init__] is given or not. *)
Record Kwargs : Type := {
  kw_block : option BlockClass;
  kw_conv_makers : option (list ConvBuilder);
  kw_layers : option (list Z);
  kw_stem : option (unit → Sequential);
  kw_num_classes : option Z;
  kw_zero_init_residual : option bool
}.

(** [VideoResNet] called with a keyword dictionary: the four parameters
    without a default are required. *)
Definition VideoResNet_call (kwargs : Kwargs) : Result VideoResNet.t :=
  match kw_block kwargs, kw_conv_makers kwargs, kw_layers kwargs, kw_stem kwargs with
  | Some block, Some conv_makers, Some layers, Some stem =>
      VideoResNet.init block conv_makers layers stem
        (default 2 (kw_num_classes kwargs))
        (default false (kw_zero_init_residual kwargs))
  | _, _, _, _ => Raise TypeError
  end.

Definition _video_resnet (arch : string) (pretrained progress : bool)
    (kwargs : Kwargs) : Result VideoResNet.t :=
  model ← VideoResNet_call kwargs;
  mret model.

(** [r3d_18]: a keyword given both explicitly and through the keyword dictionary is a
    [TypeError] at the call. *)
Definition r3d_18 (pretrained progress : bool) (kwargs : Kwargs)
    : Result VideoResNet.t :=
  match kw_block kwargs, kw_conv_makers kwargs, kw_layers kwargs, kw_stem kwargs with
  | None, None, None, None =>
      _video_resnet "r3d_18" pretrained progress
        {| kw_block := Some BasicBlockClass;
           kw_conv_makers := Some (replicate 4 Conv3DSimple.builder);
           kw_layers := Some [2; 2; 2; 2];
           kw_stem := Some BasicStem.init;
           kw_num_classes := kw_num_classes kwargs;
           kw_zero_init_residual := kw_zero_init_residual kwargs |}
  | _, _, _, _ => Raise TypeError
  end.

(** No keyword arguments. *)
Definition no_kwargs : Kwargs :=
  {| kw_block := None; kw_conv_makers := None; kw_layers := None;
     kw_stem := None; kw_num_classes := None; kw_zero_init_residual := None |}.

(** ** The framework's shape arithmetic

    The instance of the interface on tensor _shapes_: each operation maps the
    shape of its input to the shape of its output, or raises where the
    framework rejects the input. *)

Definition Shape : Type := list Z.

(** Output extent of a convolution along one axis (dilation 1). *)
Definition conv_extent (d k s p : Z) : Result Z :=
  if decide (s ≤ 0) then Raise RuntimeError
  else if decide (d + 2 * p < k) then Raise RuntimeError
  else Ok ((d + 2 * p - k) / s + 1).

Definition conv_extents (c : Conv3d.t) (d h w : Z) : Result (list Z) :=
  let '(kd, kh, kw) := Conv3d.kernel_size c in
  let '(sd, sh, sw) := Conv3d.stride c in
  let '(pd, ph, pw) := Conv3d.padding c in
  d' ← conv_extent d kd sd pd;
  h' ← conv_extent h kh sh ph;
  w' ← conv_extent w kw sw pw;
  mret [d'; h'; w'].

Definition conv3d_shape (c : Conv3d.t) (x : Shape) : Result Shape :=
  match x with
  | [n; ch; d; h; w] =>
      if decide (ch = Conv3d.in_channels c) then
        e ← conv_extents c d h w; mret (n :: Conv3d.out_channels c :: e)
      else Raise RuntimeError
  | [ch; d; h; w] =>
      if decide (ch = Conv3d.in_channels c) then
        e ← conv_extents c d h w; mret (Conv3d.out_channels c :: e)
      else Raise RuntimeError
  | _ => Raise RuntimeError
  end.

(** [BatchNorm3d] wants a 5-D input, in training mode more than one value
    per channel, and as many channels as it has features. *)
Definition batch_norm_shape (training : bool) (b : BatchNorm3d.t) (x : Shape)
    : Result Shape :=
  match x with
  | [n; ch; d; h; w] =>
      if training && bool_decide (n * (d * h * w) = 1) then Raise ValueError
      else if decide (ch = BatchNorm3d.num_features b) then Ok x
      else Raise RuntimeError
  | _ => Raise ValueError
  end.

(** [b] broadcasts to [a]: aligned at the last axis, every extent of [b] is
    the extent of [a] or 1.  Both lists are given last axis first. *)
Fixpoint broadcasts_to (b a : list Z) : bool :=
  match b, a with
  | [], _ => true
  | _ :: _, [] => false
  | y :: b, x :: a => (bool_decide (y = x) || bool_decide (y = 1)) && broadcasts_to b a
  end.

Definition add__shape (a b : Shape) : Result Shape :=
  if broadcasts_to (reverse b) (reverse a) then Ok a else Raise RuntimeError.

Definition adaptive_avg_pool3d_shape (output_size : triple) (x : Shape)
    : Result Shape :=
  let '(od, oh, ow) := output_size in
  match x with
  | [n; ch; d; h; w] =>
      if decide (0 < ch ∧ 0 < d ∧ 0 < h ∧ 0 < w) then Ok [n; ch; od; oh; ow]
      else Raise RuntimeError
  | [ch; d; h; w] =>
      if decide (0 < d ∧ 0 < h ∧ 0 < w) then Ok [ch; od; oh; ow]
      else Raise RuntimeError
  | _ => Raise RuntimeError
  end.

Definition product (l : list Z) : Z := foldr Z.mul 1 l.

(** [flatten(start_dim)] with the default [end_dim = -1]. *)
Definition flatten_shape (start_dim : Z) (x : Shape) : Result Shape :=
  let n := Z.of_nat (length x) in
  let start := if decide (start_dim < 0) then start_dim + n else start_dim in
  if decide (0 ≤ start < n) then
    Ok (take (Z.to_nat start) x ++ [product (drop (Z.to_nat start) x)])
  else Raise IndexError.

#[global] Instance ShapeOps : TensorOps Shape := {|
  conv3d := conv3d_shape;
  batch_norm := batch_norm_shape;
  relu_value := id;
  add_ := add__shape;
  adaptive_avg_pool3d := adaptive_avg_pool3d_shape;
  flatten := flatten_shape
|}.

(** Running a forward pass on one input tensor, from a store that holds
    only that tensor, and reading the result. *)
Definition run_on {T} (f : ref → St T ref) (input : T) : Result T :=
  match run (f 0%nat) [input] with
  | Ok (out, h) =>
      match h !! out with
      | Some v => Ok v
      | None => Raise RuntimeError
      end
  | Raise e => Raise e
  end.

(** The network's forward pass on shapes. *)
Definition forward_shape (training : bool) (net : VideoResNet.t) (x : Shape)
    : Result Shape :=
  run_on (VideoResNet.forward training net) x.

(** ** The forward pass as a function of tensor values

    What the forward operations compute, written the way the specification
    words it: a block is [activate(conv2(conv1(x)) + residual)], the network
    is the composition of its parts.  No store, no references: these are the
    functions the store-passing code above is compared with. *)

Section Values.
Context {T : Type} `{!TensorOps T}.
Variable training : bool.

Definition Layer_value (m : Layer) (v : T) : Result T :=
  match m with
  | LConv c => conv3d c v
  | LBatchNorm b => batch_norm training b v
  | LReLU _ => Ok (relu_value v)
  | LAdaptiveAvgPool3d output_size => adaptive_avg_pool3d output_size v
  end.

Fixpoint Sequential_value (ms : Sequential) (v : T) : Result T :=
  match ms with
  | [] => Ok v
  | m :: ms => w ← Layer_value m v; Sequential_value ms w
  end.

Definition residual_value (downsample : option Sequential) (v : T) : Result T :=
  match downsample with
  | Some downsample => Sequential_value downsample v
  | None => Ok v
  end.

Definition BasicBlock_value (b : BasicBlock.t) (v : T) : Result T :=
  c1 ← Sequential_value (BasicBlock.conv1 b) v;
  c2 ← Sequential_value (BasicBlock.conv2 b) c1;
  r ← residual_value (BasicBlock.downsample b) v;
  s ← add_ c2 r;
  Layer_value (BasicBlock.relu b) s.

Definition Bottleneck_value (b : Bottleneck.t) (v : T) : Result T :=
  c1 ← Sequential_value (Bottleneck.conv1 b) v;
  c2 ← Sequential_value (Bottleneck.conv2 b) c1;
  c3 ← Sequential_value (Bottleneck.conv3 b) c2;
  r ← residual_value (Bottleneck.downsample b) v;
  s ← add_ c3 r;
  Layer_value (Bottleneck.relu b) s.

Definition Block_value (m : Block) (v : T) : Result T :=
  match m with
  | Basic b => BasicBlock_value b v
  | Bottle b => Bottleneck_value b v
  end.

Fixpoint Stage_value (ms : list Block) (v : T) : Result T :=
  match ms with
  | [] => Ok v
  | m :: ms => w ← Block_value m v; Stage_value ms w
  end.

Definition VideoResNet_value (net : VideoResNet.t) (v : T) : Result T :=
  v ← Sequential_value (VideoResNet.stem net) v;
  v ← Stage_value (VideoResNet.layer1 net) v;
  v ← Stage_value (VideoResNet.layer2 net) v;
  v ← Stage_value (VideoResNet.layer3 net) v;
  v ← Stage_value (VideoResNet.layer4 net) v;
  v ← Layer_value (VideoResNet.avgpool net) v;
  flatten 1 v.
End Values.

(** A module whose forward pass writes its result to a new tensor. *)
Definition allocates (m : Layer) : bool :=
  match m with
  | LReLU inplace => negb inplace
  | _ => true
  end.

(** A [Sequential] that leaves its input tensor untouched: its first module
    allocates. *)
Definition keeps_input (ms : Sequential) : bool :=
  match ms with
  | m :: _ => allocates m
  | [] => false
  end.

(** A block whose main path leaves the block's input untouched, so that the
    residual read after it is the input as it was. *)
Definition Block_keeps_input (m : Block) : bool :=
  match m with
  | Basic b => keeps_input (BasicBlock.conv1 b)
  | Bottle b => keeps_input (Bottleneck.conv1 b)
  end.

Definition VideoResNet_keeps_input (net : VideoResNet.t) : bool :=
  forallb Block_keeps_input
    (VideoResNet.layer1 net ++ VideoResNet.layer2 net ++
     VideoResNet.layer3 net ++ VideoResNet.layer4 net).

(** [m], started in store [h], agrees with the value computation [r]: it
    raises what [r] raises, and when [r] is a value it returns a reference to
    that value in a store related to [h] by [P]. *)
Definition computes {T} (m : St T ref) (h : list T) (r : Result T)
    (P : ref → list T → Prop) : Prop :=
  match r with
  | Ok v => ∃ y h', run m h = Ok (y, h') ∧ h' !! y = Some v ∧ P y h'
  | Raise e => run m h = Raise e
  end.

(** From [h] to [h'] only the tensor at [x] may have been overwritten, the
    rest of [h] is as it was; the result [y] is [x] or new. *)
Definition frame_inplace {T} (x : ref) (h : list T) (y : ref) (h' : list T) : Prop :=
  (length h ≤ length h')%nat ∧
  (∀ l, l ≠ x → (l < length h)%nat → h' !! l = h !! l) ∧
  (y = x ∨ (length h ≤ y)%nat).

(** From [h] to [h'] nothing of [h] was overwritten and the result is new. *)
Definition frame_fresh {T} (h : list T) (y : ref) (h' : list T) : Prop :=
  (length h ≤ length h')%nat ∧
  (∀ l, (l < length h)%nat → h' !! l = h !! l) ∧
  (length h ≤ y)%nat.

(** ** The spec's reading of the sizes the network accepts *)

(** The reduction of one extent by a layer of stride [s] of this network:
    a 3x3x3 convolution with padding 1 and a 1x1x1 convolution without
    padding both map [d] to [(d - 1) / s + 1], and so does the 7x7x7 stem
    with padding 3 for its stride 2. *)
Definition reduce (s d : Z) : Z := (d - 1) / s + 1.

Definition halve (d : Z) : Z := reduce 2 d.

(** The four stride-2 layers on the way through the network: the stem and
    the first blocks of stages 2, 3 and 4. *)
Definition halve4 (d : Z) : Z := halve (halve (halve (halve d))).

(** An extent that is still at least 1 after [k] plain halvings. *)
Definition survives (k : nat) (d : Z) : Prop := 2 ^ Z.of_nat k ≤ d.

(** ** Reading the structure of a network *)

Definition Block_downsample (m : Block) : option Sequential :=
  match m with
  | Basic b => BasicBlock.downsample b
  | Bottle b => Bottleneck.downsample b
  end.

(** The downsample path the specification asks for in front of a stage: a
    1x1x1 convolution from the running channel count to
    [planes * expansion], with the builder's downsample stride and no bias,
    then a normalisation, when the stride is not 1 or the channel counts
    differ; none otherwise. *)
Definition downsample_path (block : BlockClass) (conv_builder : ConvBuilder)
    (planes stride inplanes : Z) : option Sequential :=
  if decide (stride ≠ 1 ∨ inplanes ≠ planes * block_expansion block) then
    Some [ LConv {| Conv3d.cls := NnConv3d;
                    Conv3d.in_channels := inplanes;
                    Conv3d.out_channels := planes * block_expansion block;
                    Conv3d.kernel_size := (1, 1, 1);
                    Conv3d.stride := get_downsample_stride conv_builder stride;
                    Conv3d.padding := (0, 0, 0);
                    Conv3d.weight := FrameworkDefault;
                    Conv3d.bias := None |};
           LBatchNorm {| BatchNorm3d.num_features := planes * block_expansion block;
                         BatchNorm3d.weight := FrameworkDefault;
                         BatchNorm3d.bias := FrameworkDefault |} ]
  else None.

(** A stage as [__init__] leaves it: built, then initialised. *)
Definition initialized (ms : list Block) : list Block :=
  map (VideoResNet.map_Block VideoResNet.initialize_module) ms.

(** ** Predicates of the further properties *)


(** A block of the BasicBlock class. *)
Definition is_Basic (m : Block) : bool :=
  match m with
  | Basic _ => true
  | Bottle _ => false
  end.

(** The parameters of a leaf module. *)
Definition Layer_parameters (l : Layer) : list Init :=
  match l with
  | LConv c =>
      Conv3d.weight c :: match Conv3d.bias c with
                         | Some b => [b]
                         | None => []
                         end
  | LBatchNorm b => [BatchNorm3d.weight b; BatchNorm3d.bias b]
  | LReLU _ | LAdaptiveAvgPool3d _ => []
  end.

(** * Properties *)

(** ** The store-passing forward pass computes the value-level one *)

Section Refinement.
Context {T : Type} `{!TensorOps T}.
Variable training : bool.
Implicit Types (h : list T) (x y : ref) (v : T).

Lemma run_bind {A B} (m : St T A) (k : A → St T B) h :
  run (m ≫= k) h =
  match run m h with
  | Ok (a, h') => run (k a) h'
  | Raise e => Raise e
  end.
Proof. reflexivity. Qed.

Lemma computes_weaken (m : St T ref) h r (P Q : ref → list T → Prop) :
  computes m h r P → (∀ y h', P y h' → Q y h') → computes m h r Q.
Proof.
  destruct r as [v|e]; simpl; [|done].
  intros (y & h' & Hrun & Hy & HP) HPQ. exists y, h'. auto.
Qed.

Lemma computes_bind (m : St T ref) (k : ref → St T ref) h r (g : T → Result T)
    (P Q : ref → list T → Prop) :
  computes m h r P →
  (∀ y h' v, r = Ok v → h' !! y = Some v → P y h' → computes (k y) h' (g v) Q) →
  computes (m ≫= k) h (r ≫= g) Q.
Proof.
  destruct r as [v|e].
  - intros (y & h' & Hrun & Hy & HP) Hk.
    specialize (Hk y h' v eq_refl Hy HP).
    change (computes (m ≫= k) h (g v) Q).
    destruct (g v) as [w|e]; unfold computes in *.
    + destruct Hk as (z & h'' & Hrun' & Hz & HQ). exists z, h''.
      rewrite run_bind, Hrun. auto.
    + by rewrite run_bind, Hrun.
  - intros Hrun _. change (run (m ≫= k) h = Raise e).
    unfold computes in Hrun. by rewrite run_bind, Hrun.
Qed.

Lemma frame_fresh_inplace x h y h' :
  (x < length h)%nat → frame_fresh h y h' → frame_inplace x h y h'.
Proof. intros Hx (Hlen & Hkeep & Hy). repeat split; auto. Qed.

Lemma frame_inplace_trans x h y h' z h'' :
  frame_inplace x h y h' → frame_inplace y h' z h'' → frame_inplace x h z h''.
Proof.
  intros (Hlen & Hkeep & Hy) (Hlen' & Hkeep' & Hz). repeat split.
  - lia.
  - intros l Hl Hlt. rewrite Hkeep' by (destruct Hy; lia). auto.
  - destruct Hz as [->|Hz]; [|right; lia]. destruct Hy; auto.
Qed.

Lemma frame_fresh_trans h y h' z h'' :
  frame_fresh h y h' → frame_inplace y h' z h'' → frame_fresh h z h''.
Proof.
  intros (Hlen & Hkeep & Hy) (Hlen' & Hkeep' & Hz). repeat split.
  - lia.
  - intros l Hlt. rewrite Hkeep' by lia. auto.
  - destruct Hz as [->|Hz]; lia.
Qed.

Lemma alloc_computes h (r : Result T) :
  computes (a ← lift r; alloc a) h r (frame_fresh h).
Proof.
  destruct r as [a|e]; simpl; [|done].
  exists (length h), (h ++ [a]). split; [done|]. split.
  - by apply list_lookup_middle.
  - repeat split.
    + rewrite length_app. lia.
    + intros l Hl. by apply lookup_app_l.
    + lia.
Qed.

Lemma load_bind {A} (k : T → St T A) h x v :
  h !! x = Some v → run (load x ≫= k) h = run (k v) h.
Proof. intros Hx. rewrite run_bind. cbn. by rewrite Hx. Qed.

Lemma Layer_forward_computes m h x v :
  h !! x = Some v →
  computes (Layer_forward training m x) h (Layer_value training m v)
    (λ y h', frame_inplace x h y h' ∧ (allocates m → frame_fresh h y h')).
Proof.
  intros Hx. pose proof (lookup_lt_Some _ _ _ Hx) as Hlt.
  assert (∀ f : T → Result T,
    computes (w ← load x; a ← lift (f w); alloc a) h (f v)
      (λ y h', frame_inplace x h y h' ∧ frame_fresh h y h')) as Halloc.
  { intros f. pose proof (alloc_computes h (f v)) as Hr.
    destruct (f v) as [a|e] eqn:Hf; unfold computes in *.
    - destruct Hr as (y & h' & Hrun & Hy & Hfr). exists y, h'.
      erewrite load_bind by exact Hx. rewrite Hf. eauto using frame_fresh_inplace.
    - erewrite load_bind by exact Hx. by rewrite Hf. }
  destruct m as [c|b|[]|sz]; cbn [Layer_forward Layer_value allocates].
  - eapply computes_weaken; [apply (Halloc (conv3d c))|]. by intros ?? [??].
  - eapply computes_weaken; [apply (Halloc (batch_norm training b))|]. by intros ?? [??].
  - exists x, (<[x := relu_value v]> h). rewrite (load_bind _ h x v Hx).
    split; [done|]. split; [by apply list_lookup_insert_eq|].
    split; [|done]. repeat split.
    + by rewrite length_insert.
    + intros l Hl _. by apply list_lookup_insert_ne.
    + by left.
  - exists (length h), (h ++ [relu_value v]).
    rewrite (load_bind _ h x v Hx). split; [done|].
    split; [by apply list_lookup_middle|].
    assert (frame_fresh h (length h) (h ++ [relu_value v])) as Hf.
    { repeat split; [rewrite length_app; lia| |lia].
      intros l Hl. by apply lookup_app_l. }
    eauto using frame_fresh_inplace.
  - eapply computes_weaken; [apply (Halloc (adaptive_avg_pool3d sz))|]. by intros ?? [??].
Qed.

Lemma Sequential_forward_computes ms h x v :
  h !! x = Some v →
  computes (Sequential_forward training ms x) h (Sequential_value training ms v)
    (λ y h', frame_inplace x h y h' ∧ (keeps_input ms → frame_fresh h y h')).
Proof.
  revert h x v. induction ms as [|m ms IH]; intros h x v Hx.
  - exists x, h. split; [done|]. split; [done|]. split; [|done].
    split; [lia|]. split; [auto|by left].
  - cbn [Sequential_forward Sequential_value keeps_input].
    eapply computes_bind; [by apply Layer_forward_computes|].
    intros y h' w _ Hy [Hin Hfresh].
    eapply computes_weaken; [by apply IH|].
    intros z h'' [Hin' _]. split.
    + eauto using frame_inplace_trans.
    + intros Ha. eauto using frame_fresh_trans.
Qed.
Lemma computes_ret_r (m : St T ref) h r (P : ref → list T → Prop) :
  computes m h r P → computes (y ← m; mret y) h r P.
Proof.
  destruct r as [v|e]; unfold computes.
  - intros (y & h' & Hrun & Hy & HP). exists y, h'. by rewrite run_bind, Hrun.
  - intros Hrun. by rewrite run_bind, Hrun.
Qed.

Lemma iadd_computes h out residual a b :
  h !! out = Some a → h !! residual = Some b →
  computes (iadd out residual) h (add_ a b)
    (λ y h', y = out ∧ length h' = length h ∧ ∀ l, l ≠ out → h' !! l = h !! l).
Proof.
  intros Ha Hb. unfold iadd.
  destruct (add_ a b) as [s|e] eqn:Hs; unfold computes.
  - exists out, (<[out := s]> h).
    rewrite (load_bind _ h out a Ha), (load_bind _ h residual b Hb).
    rewrite run_bind. cbn [lift run]. rewrite Hs. split; [done|].
    split; [apply list_lookup_insert_eq; by eapply lookup_lt_Some|].
    split; [done|]. split; [by rewrite length_insert|].
    intros l Hl. by apply list_lookup_insert_ne.
  - rewrite (load_bind _ h out a Ha), (load_bind _ h residual b Hb).
    rewrite run_bind. cbn [lift run]. by rewrite Hs.
Qed.

(** The part the two block variants share: residual, addition, activation.
    [out] holds the result [c] of the main path and is not the input. *)
Lemma residual_tail_computes (downsample : option Sequential) (relu : Layer)
    h x v out c :
  h !! x = Some v → h !! out = Some c → out ≠ x →
  computes
    (residual ← match downsample with
                | Some downsample => Sequential_forward training downsample x
                | None => mret x
                end;
     out ← iadd out residual;
     out ← Layer_forward training relu out;
     mret out) h
    (r ← residual_value training downsample v;
     s ← add_ c r;
     Layer_value training relu s)
    (λ y h', (length h ≤ length h')%nat ∧
             (∀ l, l ≠ x → l ≠ out → (l < length h)%nat → h' !! l = h !! l) ∧
             (y = out ∨ (length h ≤ y)%nat)).
Proof.
  intros Hx Hout Hne.
  pose proof (lookup_lt_Some _ _ _ Hx) as Hxlt.
  pose proof (lookup_lt_Some _ _ _ Hout) as Holt.
  eapply computes_bind with (P := frame_inplace x h).
  { destruct downsample as [d|]; cbn [residual_value].
    - eapply computes_weaken; [by apply Sequential_forward_computes|].
      by intros ?? [??].
    - exists x, h. split; [done|]. split; [done|].
      split; [lia|]. split; [auto|by left]. }
  intros r h3 rv _ Hr (Hlen3 & Hkeep3 & Hr3).
  assert (h3 !! out = Some c) as Hout3 by (rewrite Hkeep3; auto).
  eapply computes_bind; [by eapply iadd_computes|].
  intros o h4 s _ Ho (-> & Hlen4 & Hkeep4).
  apply computes_ret_r.
  eapply computes_weaken; [by apply Layer_forward_computes|].
  intros y h5 [(Hlen5 & Hkeep5 & Hy5) _]. split; [lia|]. split.
  - intros l Hlx Hlo Hlt. rewrite Hkeep5, Hkeep4, Hkeep3 by (auto; lia). done.
  - destruct Hy5; [by left|right; lia].
Qed.

Lemma BasicBlock_forward_computes (b : BasicBlock.t) h x v :
  keeps_input (BasicBlock.conv1 b) → h !! x = Some v →
  computes (BasicBlock.forward training b x) h (BasicBlock_value training b v)
    (frame_inplace x h).
Proof.
  intros Hkeeps Hx. pose proof (lookup_lt_Some _ _ _ Hx) as Hxlt.
  unfold BasicBlock.forward, BasicBlock_value.
  eapply computes_bind; [by apply Sequential_forward_computes|].
  intros o1 h1 c1 _ Ho1 [_ Hf1]. specialize (Hf1 Hkeeps).
  eapply computes_bind; [by apply Sequential_forward_computes|].
  intros o2 h2 c2 _ Ho2 [Hin2 _].
  destruct (frame_fresh_trans _ _ _ _ _ Hf1 Hin2) as (Hlen & Hkeep & Hfresh).
  eapply computes_weaken.
  { apply residual_tail_computes with (x := x) (v := v); [|done|lia].
    rewrite Hkeep; auto. }
  intros y h' (Hlen' & Hkeep' & Hy). split; [lia|]. split.
  - intros l Hl Hlt. rewrite Hkeep' by lia. auto.
  - right. destruct Hy; lia.
Qed.

Lemma Bottleneck_forward_computes (b : Bottleneck.t) h x v :
  keeps_input (Bottleneck.conv1 b) → h !! x = Some v →
  computes (Bottleneck.forward training b x) h (Bottleneck_value training b v)
    (frame_inplace x h).
Proof.
  intros Hkeeps Hx. pose proof (lookup_lt_Some _ _ _ Hx) as Hxlt.
  unfold Bottleneck.forward, Bottleneck_value.
  eapply computes_bind; [by apply Sequential_forward_computes|].
  intros o1 h1 c1 _ Ho1 [_ Hf1]. specialize (Hf1 Hkeeps).
  eapply computes_bind; [by apply Sequential_forward_computes|].
  intros o2 h2 c2 _ Ho2 [Hin2 _].
  pose proof (frame_fresh_trans _ _ _ _ _ Hf1 Hin2) as Hf2.
  eapply computes_bind; [by apply Sequential_forward_computes|].
  intros o3 h3 c3 _ Ho3 [Hin3 _].
  destruct (frame_fresh_trans _ _ _ _ _ Hf2 Hin3) as (Hlen & Hkeep & Hfresh).
  eapply computes_weaken.
  { apply residual_tail_computes with (x := x) (v := v); [|done|lia].
    rewrite Hkeep; auto. }
  intros y h' (Hlen' & Hkeep' & Hy). split; [lia|]. split.
  - intros l Hl Hlt. rewrite Hkeep' by lia. auto.
  - right. destruct Hy; lia.
Qed.

Lemma Block_forward_computes (m : Block) h x v :
  Block_keeps_input m → h !! x = Some v →
  computes (Block_forward training m x) h (Block_value training m v)
    (frame_inplace x h).
Proof.
  destruct m; [apply BasicBlock_forward_computes|apply Bottleneck_forward_computes].
Qed.

Lemma Stage_forward_computes (ms : list Block) h x v :
  forallb Block_keeps_input ms → h !! x = Some v →
  computes (Stage_forward training ms x) h (Stage_value training ms v)
    (frame_inplace x h).
Proof.
  revert h x v. induction ms as [|m ms IH]; intros h x v Hms Hx.
  - exists x, h. split; [done|]. split; [done|].
    split; [lia|]. split; [auto|by left].
  - cbn [forallb] in Hms. apply andb_True in Hms as [Hm Hms].
    cbn [Stage_forward Stage_value].
    eapply computes_bind; [by apply Block_forward_computes|].
    intros y h' w _ Hy Hin.
    eapply computes_weaken; [by apply IH|].
    intros z h'' Hin'. eauto using frame_inplace_trans.
Qed.

Lemma Tensor_flatten_computes h x v start_dim :
  h !! x = Some v →
  computes (Tensor_flatten x start_dim) h (flatten start_dim v) (frame_fresh h).
Proof.
  intros Hx. pose proof (alloc_computes h (flatten start_dim v)) as Hr.
  unfold Tensor_flatten.
  destruct (flatten start_dim v) as [a|e] eqn:Hf; unfold computes in *.
  - destruct Hr as (y & h' & Hrun & Hy & Hfr). exists y, h'.
    rewrite (load_bind _ h x v Hx), Hf. auto.
  - by rewrite (load_bind _ h x v Hx), Hf.
Qed.

Lemma VideoResNet_forward_computes (net : VideoResNet.t) h x v :
  VideoResNet_keeps_input net → h !! x = Some v →
  computes (VideoResNet.forward training net x) h
    (VideoResNet_value training net v) (λ _ _, True).
Proof.
  unfold VideoResNet_keeps_input. rewrite !forallb_app, !andb_True.
  intros (H1 & H2 & H3 & H4) Hx.
  unfold VideoResNet.forward, VideoResNet_value.
  eapply computes_bind; [by apply Sequential_forward_computes|].
  intros x0 h0 v0 _ Hx0 _.
  eapply computes_bind; [by apply Stage_forward_computes|].
  intros x1 h1 v1 _ Hx1 _.
  eapply computes_bind; [by apply Stage_forward_computes|].
  intros x2 h2 v2 _ Hx2 _.
  eapply computes_bind; [by apply Stage_forward_computes|].
  intros x3 h3 v3 _ Hx3 _.
  eapply computes_bind; [by apply Stage_forward_computes|].
  intros x4 h4 v4 _ Hx4 _.
  eapply computes_bind; [by apply Layer_forward_computes|].
  intros x5 h5 v5 _ Hx5 _.
  apply computes_ret_r.
  eapply computes_weaken; [by apply Tensor_flatten_computes|]. done.
Qed.

(** Run from a store that holds only the input, the network returns the
    value-level result. *)
Lemma run_on_forward (net : VideoResNet.t) v :
  VideoResNet_keeps_input net →
  run_on (VideoResNet.forward training net) v = VideoResNet_value training net v.
Proof.
  intros Hnet.
  pose proof (VideoResNet_forward_computes net [v] 0%nat v Hnet eq_refl) as Hc.
  unfold run_on. destruct (VideoResNet_value training net v) as [w|e]; unfold computes in Hc.
  - destruct Hc as (y & h' & -> & -> & _). done.
  - by rewrite Hc.
Qed.
End Refinement.

(** ** Shape arithmetic of the layers the network is made of *)

Section ShapeFacts.
Implicit Types (n d h w k s p : Z).

Lemma bind_Ok {A B} (a : A) (f : A → Result B) : (Ok a ≫= f) = f a.
Proof. reflexivity. Qed.

Lemma conv_extent_stem d : 1 ≤ d → conv_extent d 7 2 3 = Ok (reduce 2 d).
Proof.
  intros Hd. unfold conv_extent, halve, reduce.
  rewrite !decide_False by lia. do 2 f_equal. f_equal. lia.
Qed.

Lemma conv_extent_3x3 d s : 1 ≤ d → 0 < s → conv_extent d 3 s 1 = Ok (reduce s d).
Proof.
  intros Hd Hs. unfold conv_extent, reduce.
  rewrite !decide_False by lia. do 2 f_equal. f_equal. lia.
Qed.

Lemma conv_extent_1x1 d s : 1 ≤ d → 0 < s → conv_extent d 1 s 0 = Ok (reduce s d).
Proof.
  intros Hd Hs. unfold conv_extent, reduce.
  rewrite !decide_False by lia. do 2 f_equal. f_equal. lia.
Qed.

Lemma reduce_1 d : reduce 1 d = d.
Proof. unfold reduce. rewrite Z.div_1_r. lia. Qed.

Lemma halve_lower d k : 2 * k - 1 ≤ d → k ≤ halve d.
Proof.
  intros Hd. unfold halve, reduce.
  assert (k - 1 ≤ (d - 1) / 2) by (apply Z.div_le_lower_bound; lia). lia.
Qed.

Lemma halve_upper d : 1 ≤ d → halve d ≤ d.
Proof.
  intros Hd. unfold halve, reduce.
  assert ((d - 1) / 2 ≤ d - 1) by (apply Z.div_le_upper_bound; lia). lia.
Qed.

Lemma conv3d_shape_stem cls cin cout wt bs n d h w :
  1 ≤ d → 1 ≤ h → 1 ≤ w →
  conv3d_shape (Conv3d.mk cls cin cout (7, 7, 7) (2, 2, 2) (3, 3, 3) wt bs)
    [n; cin; d; h; w] = Ok [n; cout; reduce 2 d; reduce 2 h; reduce 2 w].
Proof.
  intros. unfold conv3d_shape, conv_extents. cbn [Conv3d.in_channels
    Conv3d.out_channels Conv3d.kernel_size Conv3d.stride Conv3d.padding].
  rewrite decide_True by done. by rewrite !conv_extent_stem.
Qed.

Lemma conv3d_shape_3x3 cls cin cout s wt bs n d h w :
  0 < s → 1 ≤ d → 1 ≤ h → 1 ≤ w →
  conv3d_shape (Conv3d.mk cls cin cout (3, 3, 3) (s, s, s) (1, 1, 1) wt bs)
    [n; cin; d; h; w] = Ok [n; cout; reduce s d; reduce s h; reduce s w].
Proof.
  intros. unfold conv3d_shape, conv_extents. cbn [Conv3d.in_channels
    Conv3d.out_channels Conv3d.kernel_size Conv3d.stride Conv3d.padding].
  rewrite decide_True by done. by rewrite !conv_extent_3x3.
Qed.

Lemma conv3d_shape_1x1 cls cin cout s wt bs n d h w :
  0 < s → 1 ≤ d → 1 ≤ h → 1 ≤ w →
  conv3d_shape (Conv3d.mk cls cin cout (1, 1, 1) (s, s, s) (0, 0, 0) wt bs)
    [n; cin; d; h; w] = Ok [n; cout; reduce s d; reduce s h; reduce s w].
Proof.
  intros. unfold conv3d_shape, conv_extents. cbn [Conv3d.in_channels
    Conv3d.out_channels Conv3d.kernel_size Conv3d.stride Conv3d.padding].
  rewrite decide_True by done. by rewrite !conv_extent_1x1.
Qed.

Lemma batch_norm_shape_ok training ch wt bs n d h w :
  training = false ∨ n * (d * h * w) ≠ 1 →
  batch_norm_shape training (BatchNorm3d.mk ch wt bs) [n; ch; d; h; w]
  = Ok [n; ch; d; h; w].
Proof.
  intros Htr. unfold batch_norm_shape. cbn [BatchNorm3d.num_features].
  rewrite decide_True by done.
  destruct Htr as [->|Hne]; [done|].
  by rewrite bool_decide_eq_false_2, andb_false_r.
Qed.

Lemma broadcasts_to_refl (a : list Z) : broadcasts_to a a = true.
Proof.
  induction a as [|x a IH]; [done|]. cbn [broadcasts_to].
  by rewrite bool_decide_eq_true_2, IH.
Qed.

Lemma add__shape_same (a : Shape) : add__shape a a = Ok a.
Proof. unfold add__shape. by rewrite broadcasts_to_refl. Qed.
End ShapeFacts.

(** ** The shape of the network's output *)

Lemma batch_norm_side training n d h w d' h' w' :
  training = false ∨ n * (d' * h' * w') ≠ 1 →
  1 ≤ n → 1 ≤ d' ≤ d → 1 ≤ h' ≤ h → 1 ≤ w' ≤ w →
  training = false ∨ n * (d * h * w) ≠ 1.
Proof.
  intros [->|Hne] Hn Hd Hh Hw; [by left|right].
  assert (1 ≤ d' * h') by (apply (Z.mul_le_mono_nonneg 1 d' 1 h'); lia).
  assert (1 ≤ d' * h' * w') by (apply (Z.mul_le_mono_nonneg 1 (d' * h') 1 w'); lia).
  assert (d' * h' ≤ d * h) by (apply Z.mul_le_mono_nonneg; lia).
  assert (d' * h' * w' ≤ d * h * w) by (apply Z.mul_le_mono_nonneg; lia).
  assert (n * (d' * h' * w') ≤ n * (d * h * w)) by (apply Z.mul_le_mono_nonneg; lia).
  destruct (decide (n = 1)) as [->|]; [lia|].
  assert (2 * 1 ≤ n * (d * h * w)) by (apply Z.mul_le_mono_nonneg; lia).
  lia.
Qed.

Lemma reduce_2_bounds d : 1 ≤ d → 1 ≤ reduce 2 d ≤ d.
Proof. intros. split; [apply halve_lower; lia|by apply halve_upper]. Qed.

(** One step of evaluating a value-level forward pass on a shape. *)
Ltac shape_step Htr :=
  first
  [ rewrite conv3d_shape_stem by lia
  | rewrite conv3d_shape_3x3 by lia
  | rewrite conv3d_shape_1x1 by lia
  | rewrite batch_norm_shape_ok by (eapply batch_norm_side; [exact Htr|lia..])
  | rewrite add__shape_same
  | rewrite bind_Ok
  | rewrite reduce_1
  | progress unfold BasicBlock_value
  | progress cbn [Sequential_value Stage_value Block_value Layer_value
      residual_value BasicBlock.conv1 BasicBlock.conv2 BasicBlock.relu
      BasicBlock.downsample conv3d batch_norm relu_value add_
      adaptive_avg_pool3d flatten ShapeOps id] ].

(** The network [r3d_18] returns is the same for all its arguments. *)
Lemma r3d_18_Ok_inv pretrained progress kwargs net :
  r3d_18 pretrained progress kwargs = Ok net →
  r3d_18 false true no_kwargs = Ok net.
Proof.
  unfold r3d_18.
  destruct kwargs as [[] [] [] [] nc [[]|]]; try discriminate;
    intros Hnet; vm_compute in Hnet; injection Hnet as <-; by vm_compute.
Qed.

(** The output shape, under the weakest condition the layers ask for: all
    extents positive and, in training mode, more than one value per channel
    after the last stage. *)
Lemma r3d_18_value_shape training pretrained progress kwargs net N D H W :
  r3d_18 pretrained progress kwargs = Ok net →
  1 ≤ N → 1 ≤ D → 1 ≤ H → 1 ≤ W →
  training = false ∨ N * (halve4 D * halve4 H * halve4 W) ≠ 1 →
  VideoResNet_value training net [N; 1; D; H; W] = Ok [N; 256].
Proof.
  intros Hnet HN HD HH HW Htr. apply r3d_18_Ok_inv in Hnet.
  unfold halve4, halve in Htr.
  pose proof (reduce_2_bounds D HD) as HD1.
  pose proof (reduce_2_bounds _ (proj1 HD1)) as HD2.
  pose proof (reduce_2_bounds _ (proj1 HD2)) as HD3.
  pose proof (reduce_2_bounds _ (proj1 HD3)) as HD4.
  pose proof (reduce_2_bounds H HH) as HH1.
  pose proof (reduce_2_bounds _ (proj1 HH1)) as HH2.
  pose proof (reduce_2_bounds _ (proj1 HH2)) as HH3.
  pose proof (reduce_2_bounds _ (proj1 HH3)) as HH4.
  pose proof (reduce_2_bounds W HW) as HW1.
  pose proof (reduce_2_bounds _ (proj1 HW1)) as HW2.
  pose proof (reduce_2_bounds _ (proj1 HW2)) as HW3.
  pose proof (reduce_2_bounds _ (proj1 HW3)) as HW4.
  vm_compute in Hnet. injection Hnet as <-.
  unfold VideoResNet_value.
  cbn [VideoResNet.stem VideoResNet.layer1 VideoResNet.layer2
       VideoResNet.layer3 VideoResNet.layer4 VideoResNet.avgpool].
  repeat shape_step Htr.
  unfold adaptive_avg_pool3d_shape. rewrite decide_True by lia.
  rewrite bind_Ok. reflexivity.
Qed.

Lemma r3d_18_keeps_input pretrained progress kwargs net :
  r3d_18 pretrained progress kwargs = Ok net → VideoResNet_keeps_input net.
Proof.
  intros Hnet. apply r3d_18_Ok_inv in Hnet.
  vm_compute in Hnet. injection Hnet as <-. by vm_compute.
Qed.

Lemma survives_5_halve4 d : survives 5 d → 2 ≤ halve4 d.
Proof.
  unfold survives, halve4. change (2 ^ Z.of_nat 5) with 32. intros Hd.
  do 4 (apply halve_lower; try lia).
Qed.

Lemma survives_5_positive d : survives 5 d → 1 ≤ d.
Proof. unfold survives. change (2 ^ Z.of_nat 5) with 32. lia. Qed.

(** C1: for the network [r3d_18] builds, the forward operation computes
    stem, layer1, layer2, layer3, layer4, adaptive average pooling to
    (1, 1, 1) and flatten from dimension 1, in this order and with no
    projection after it; on an input of shape (N, 1, D, H, W) with N at least
    1 and D, H, W large enough for five halvings, in training as in
    evaluation mode, the result has shape (N, 256). *)
Theorem r3d_18_forward (pretrained progress training : bool) (kwargs : Kwargs)
    (net : VideoResNet.t) (N D H W : Z) :
  r3d_18 pretrained progress kwargs = Ok net →
  1 ≤ N → survives 5 D → survives 5 H → survives 5 W →
  (∀ (T : Type) (ops : TensorOps T) (h : list T) (x : ref) (v : T),
     h !! x = Some v →
     computes (VideoResNet.forward training net x) h
       (v ← Sequential_value training (VideoResNet.stem net) v;
        v ← Stage_value training (VideoResNet.layer1 net) v;
        v ← Stage_value training (VideoResNet.layer2 net) v;
        v ← Stage_value training (VideoResNet.layer3 net) v;
        v ← Stage_value training (VideoResNet.layer4 net) v;
        v ← adaptive_avg_pool3d (1, 1, 1) v;
        flatten 1 v)
       (λ _ _, True)) ∧
  forward_shape training net [N; 1; D; H; W] = Ok [N; 256].
Proof.
  intros Hnet HN HD HH HW.
  pose proof (r3d_18_keeps_input _ _ _ _ Hnet) as Hkeeps. split.
  - intros T ops h x v Hx.
    assert (VideoResNet.avgpool net = LAdaptiveAvgPool3d (1, 1, 1)) as Havg.
    { apply r3d_18_Ok_inv in Hnet. vm_compute in Hnet. by injection Hnet as <-. }
    pose proof (VideoResNet_forward_computes training net h x v Hkeeps Hx) as Hc.
    unfold VideoResNet_value in Hc. by rewrite Havg in Hc.
  - unfold forward_shape. rewrite run_on_forward by done.
    eapply r3d_18_value_shape; eauto using survives_5_positive.
    right. apply survives_5_halve4 in HD, HH, HW.
    assert (2 * 2 ≤ halve4 D * halve4 H) by (apply Z.mul_le_mono_nonneg; lia).
    assert (4 * 2 ≤ halve4 D * halve4 H * halve4 W)
      by (apply Z.mul_le_mono_nonneg; lia).
    assert (1 * 8 ≤ N * (halve4 D * halve4 H * halve4 W))
      by (apply Z.mul_le_mono_nonneg; lia).
    lia.
Qed.

Lemma r3d_18_forward_witness :
  ∃ net, r3d_18 false true no_kwargs = Ok net ∧
         forward_shape true net [2; 1; 32; 32; 32] = Ok [2; 256].
Proof.
  eexists. split; [by vm_compute|].
  refine (proj2 (r3d_18_forward false true true no_kwargs _ 2 32 32 32 _ _ _ _ _)).
  - by vm_compute.
  - lia.
  - unfold survives. by vm_compute.
  - unfold survives. by vm_compute.
  - unfold survives. by vm_compute.
Defined.

(** The sizes the network is run on in the file's own example and in the
    specification's scenarios. *)
Example forward_shape_main :
  (net ← r3d_18 false true no_kwargs;
   forward_shape true net [8; 1; 182; 218; 182]) = Ok [8; 256].
Proof. by vm_compute. Qed.

Example forward_shape_scenario :
  (net ← r3d_18 false true no_kwargs;
   forward_shape true net [1; 1; 182; 218; 182]) = Ok [1; 256].
Proof. by vm_compute. Qed.

(** In evaluation mode every input with positive extents goes through. *)
Lemma r3d_18_forward_shape_eval pretrained progress kwargs net N D H W :
  r3d_18 pretrained progress kwargs = Ok net →
  1 ≤ N → 1 ≤ D → 1 ≤ H → 1 ≤ W →
  forward_shape false net [N; 1; D; H; W] = Ok [N; 256].
Proof.
  intros Hnet HN HD HH HW. unfold forward_shape.
  rewrite run_on_forward by eauto using r3d_18_keeps_input.
  eapply r3d_18_value_shape; eauto.
Qed.

(** In training mode the normalisation wants more than one value per
    channel: a single sample whose extents are 16 ends at 1x1x1 after the
    four stride-2 layers and is rejected, one with an extent of 17 is not. *)
Example forward_shape_training_16 :
  (net ← r3d_18 false true no_kwargs;
   forward_shape true net [1; 1; 16; 16; 16]) = Raise ValueError.
Proof. by vm_compute. Qed.

Example forward_shape_training_17 :
  (net ← r3d_18 false true no_kwargs;
   forward_shape true net [1; 1; 17; 16; 16]) = Ok [1; 256].
Proof. by vm_compute. Qed.

(** ** Building a stage *)

Lemma fmap_Ok_inv {A B} (f : A → B) (m : Result A) (b : B) :
  f <$> m = Ok b → ∃ a, m = Ok a ∧ b = f a.
Proof. destruct m as [a|e]; [|done]. intros [= <-]. eauto. Qed.

Lemma bind_Ok_inv {A B} (m : Result A) (k : A → Result B) (b : B) :
  m ≫= k = Ok b → ∃ a, m = Ok a ∧ k a = Ok b.
Proof. destruct m as [a|e]; [|done]. eauto. Qed.

Lemma block_init_downsample block inplanes planes conv_builder stride downsample m :
  block_init block inplanes planes conv_builder stride downsample = Ok m →
  Block_downsample m = downsample.
Proof.
  destruct block; cbn [block_init]; intros Hm;
    apply fmap_Ok_inv in Hm as (b & Hb & ->);
    [unfold BasicBlock.init in Hb|unfold Bottleneck.init in Hb];
    apply bind_Ok_inv in Hb as (mid & _ & [= <-]); done.
Qed.

Lemma mapR_const_inv {A B} (r : Result B) (xs : list A) (ys : list B) :
  mapR (λ _, r) xs = Ok ys → length ys = length xs ∧ ∀ y, y ∈ ys → r = Ok y.
Proof.
  revert ys. induction xs as [|x xs IH]; intros ys; cbn [mapR].
  - intros [= <-]. split; [done|]. intros y Hy. by apply elem_of_nil in Hy.
  - intros Hys. apply bind_Ok_inv in Hys as (y0 & Hr & Hys).
    apply bind_Ok_inv in Hys as (ys0 & Hrec & [= <-]).
    destruct (IH _ Hrec) as [Hlen Hall]. split; [cbn; by rewrite Hlen|].
    intros y [->|Hy]%elem_of_cons; auto.
Qed.

(** What [_make_layer] returns, when it returns: the first block built from
    the running channel count with the requested stride and the downsample
    path, [blocks - 1] further blocks built at [planes * expansion] with
    stride 1 and no downsample, and the new running channel count. *)
Lemma _make_layer_inv block conv_builder planes blocks stride inplanes layers inplanes' :
  VideoResNet._make_layer block conv_builder planes blocks stride inplanes
    = Ok (layers, inplanes') →
  inplanes' = planes * block_expansion block ∧
  ∃ first rest,
    layers = first :: rest ∧
    block_init block inplanes planes conv_builder stride
      (downsample_path block conv_builder planes stride inplanes) = Ok first ∧
    length rest = Z.to_nat (blocks - 1) ∧
    ∀ m, m ∈ rest →
      block_init block (planes * block_expansion block) planes conv_builder 1 None
        = Ok m.
Proof.
  unfold VideoResNet._make_layer. intros Hl.
  apply bind_Ok_inv in Hl as (first & Hfirst & Hl).
  apply bind_Ok_inv in Hl as (rest & Hrest & [= <- <-]).
  split; [done|]. exists first, rest. split; [done|].
  apply mapR_const_inv in Hrest as [Hlen Hall]. split; [|split].
  - rewrite <- Hfirst. f_equal. unfold downsample_path.
    destruct (decide (stride ≠ 1 ∨ inplanes ≠ planes * block_expansion block)).
    + by rewrite bool_decide_eq_true_2.
    + by rewrite bool_decide_eq_false_2.
  - rewrite Hlen. unfold range. by rewrite length_seqZ.
  - auto.
Qed.

(** C2: in [_make_layer] the first block of a stage has a downsample path
    if and only if the requested stride is not 1 or the running channel count
    is not [planes * expansion]; when it has one, the path is a 1x1x1
    convolution from the running channel count to [planes * expansion] whose
    stride is the builder's downsample stride of the requested stride, which
    for Conv3DSimple is (stride, stride, stride), followed by a
    normalisation over [planes * expansion] channels. *)
Theorem _make_layer_downsample (block : BlockClass) (conv_builder : ConvBuilder)
    (planes blocks stride inplanes : Z) (layers : list Block) (inplanes' : Z) :
  VideoResNet._make_layer block conv_builder planes blocks stride inplanes
    = Ok (layers, inplanes') →
  ∃ first rest,
    layers = first :: rest ∧
    (is_Some (Block_downsample first) ↔
       stride ≠ 1 ∨ inplanes ≠ planes * block_expansion block) ∧
    (∀ downsample, Block_downsample first = Some downsample →
       ∃ conv norm,
         downsample = [LConv conv; LBatchNorm norm] ∧
         Conv3d.kernel_size conv = (1, 1, 1) ∧
         Conv3d.in_channels conv = inplanes ∧
         Conv3d.out_channels conv = planes * block_expansion block ∧
         Conv3d.stride conv = get_downsample_stride conv_builder stride ∧
         (conv_builder = Conv3DSimple.builder →
            Conv3d.stride conv = (stride, stride, stride)) ∧
         Conv3d.padding conv = (0, 0, 0) ∧
         Conv3d.bias conv = None ∧
         BatchNorm3d.num_features norm = planes * block_expansion block).
Proof.
  intros Hl. apply _make_layer_inv in Hl as (_ & first & rest & -> & Hfirst & _).
  exists first, rest. split; [done|].
  apply block_init_downsample in Hfirst. rewrite Hfirst. unfold downsample_path.
  destruct (decide (stride ≠ 1 ∨ inplanes ≠ planes * block_expansion block))
    as [Hyes|Hno]; split.
  - done.
  - intros ds [= <-]. do 2 eexists. split; [done|]. cbn.
    repeat split; try done. by intros ->.
  - split; [by intros [? [=]]|done].
  - intros ds [=].
Qed.

Lemma _make_layer_downsample_witness :
  ∃ layers,
    VideoResNet._make_layer BasicBlockClass Conv3DSimple.builder 128 2 2 64
      = Ok (layers, 128) ∧
    ∃ first rest,
      layers = first :: rest ∧
      (is_Some (Block_downsample first) ↔ (2 ≠ 1 ∨ 64 ≠ 128 * 1)).
Proof.
  eexists. split.
  - vm_compute. reflexivity.
  - edestruct (_make_layer_downsample BasicBlockClass Conv3DSimple.builder
                 128 2 2 64) as (first & rest & Heq & Hiff & _).
    + vm_compute. reflexivity.
    + exists first, rest. split; [exact Heq|exact Hiff].
Defined.

(** ** The mid-plane count *)

Lemma midplanes_denominator inplanes planes :
  0 ≤ inplanes → 0 ≤ planes →
  (inplanes * 3 * 3 + 3 * planes = 0 ↔ inplanes = 0 ∧ planes = 0).
Proof. lia. Qed.

Lemma floordiv_nonneg a b :
  0 ≤ a → 0 < b → floordiv a b = Ok (Z.quot a b) ∧ 0 ≤ Z.quot a b.
Proof.
  intros Ha Hb. unfold floordiv. rewrite decide_False by lia.
  rewrite Z.quot_div_nonneg by lia. split; [done|].
  apply Z.div_pos; lia.
Qed.

(** C5: for non-negative [inplanes] and [planes], not both zero, the
    mid-plane count computed when a block is constructed is
    [(inplanes * planes * 27) // (inplanes * 9 + 3 * planes)] with truncating
    division, it is not negative, and it is the number both block variants
    hand to the convolution builder: the computation is a function of the
    two arguments alone. *)
Theorem midplanes_formula (inplanes planes : Z) (conv_builder : ConvBuilder)
    (stride : Z) (downsample : option Sequential) :
  0 ≤ inplanes → 0 ≤ planes → 0 < inplanes ∨ 0 < planes →
  let mid := Z.quot (inplanes * planes * 27) (inplanes * 9 + 3 * planes) in
  BasicBlock.midplanes inplanes planes = Ok mid ∧
  Bottleneck.midplanes inplanes planes = Ok mid ∧
  0 ≤ mid ∧
  (∃ b, BasicBlock.init inplanes planes conv_builder stride downsample = Ok b ∧
        BasicBlock.conv1 b =
          [ LConv (build conv_builder inplanes planes (Some mid) (Some stride));
            LBatchNorm (BatchNorm3d.init planes); LReLU true ]) ∧
  (∃ b, Bottleneck.init inplanes planes conv_builder stride downsample = Ok b ∧
        Bottleneck.conv2 b =
          [ LConv (build conv_builder planes planes (Some mid) (Some stride));
            LBatchNorm (BatchNorm3d.init planes); LReLU true ]).
Proof.
  intros Hi Hp Hnz mid.
  assert (0 ≤ inplanes * planes * 3 * 3 * 3) as Hnum by nia.
  assert (0 < inplanes * 3 * 3 + 3 * planes) as Hden by lia.
  destruct (floordiv_nonneg _ _ Hnum Hden) as [Hdiv Hpos].
  assert (Z.quot (inplanes * planes * 3 * 3 * 3) (inplanes * 3 * 3 + 3 * planes)
          = mid) as Hmid.
  { unfold mid. f_equal; lia. }
  rewrite Hmid in Hdiv, Hpos.
  assert (BasicBlock.midplanes inplanes planes = Ok mid) as Hbasic by done.
  assert (Bottleneck.midplanes inplanes planes = Ok mid) as Hbottle by done.
  repeat split; try done.
  - unfold BasicBlock.init. rewrite Hbasic. eexists. split; [reflexivity|done].
  - unfold Bottleneck.init. rewrite Hbottle. eexists. split; [reflexivity|done].
Qed.

Lemma midplanes_formula_witness :
  BasicBlock.midplanes 64 128 = Ok 230 ∧ Bottleneck.midplanes 64 128 = Ok 230.
Proof.
  destruct (midplanes_formula 64 128 Conv3DSimple.builder 2 None)
    as (Hbasic & Hbottle & _); [lia|lia|lia|].
  split; [exact Hbasic|exact Hbottle].
Defined.

(** C10, as amended: for non-negative channel counts the divisor
    [inplanes * 9 + 3 * planes] of the mid-plane count is zero exactly when
    both counts are zero; when one of them is positive, constructing a
    BasicBlock or a Bottleneck does not divide by zero and returns the block;
    when both are zero, either construction raises ZeroDivisionError. *)
Theorem block_init_division (inplanes planes : Z) (conv_builder : ConvBuilder)
    (stride : Z) (downsample : option Sequential) :
  0 ≤ inplanes → 0 ≤ planes →
  (inplanes * 3 * 3 + 3 * planes = 0 ↔ inplanes = 0 ∧ planes = 0) ∧
  (0 < inplanes ∨ 0 < planes →
     (∃ b, BasicBlock.init inplanes planes conv_builder stride downsample = Ok b) ∧
     (∃ b, Bottleneck.init inplanes planes conv_builder stride downsample = Ok b)) ∧
  (inplanes = 0 ∧ planes = 0 →
     BasicBlock.init inplanes planes conv_builder stride downsample
       = Raise ZeroDivisionError ∧
     Bottleneck.init inplanes planes conv_builder stride downsample
       = Raise ZeroDivisionError).
Proof.
  intros Hi Hp. split; [by apply midplanes_denominator|]. split.
  - intros Hnz.
    unfold BasicBlock.init, Bottleneck.init, BasicBlock.midplanes,
      Bottleneck.midplanes, floordiv.
    rewrite !decide_False by lia. split; eexists; reflexivity.
  - intros [-> ->]. done.
Qed.

Lemma block_init_division_witness :
  (∃ b, BasicBlock.init 64 128 Conv3DSimple.builder 2 None = Ok b) ∧
  Bottleneck.init 0 0 Conv3DSimple.builder 1 None = Raise ZeroDivisionError.
Proof.
  split.
  - destruct (block_init_division 64 128 Conv3DSimple.builder 2 None)
      as (_ & Hpos & _); [lia|lia|].
    apply Hpos. lia.
  - destruct (block_init_division 0 0 Conv3DSimple.builder 1 None)
      as (_ & _ & Hzero); [lia|lia|].
    apply Hzero. split; reflexivity.
Defined.

(** C10 as stated, without the restriction to non-negative counts: the
    precondition [inplanes > 0 or planes > 0] holds for [inplanes = 1] and
    [planes = -3], the divisor [1 * 9 + 3 * (-3)] is zero although the counts
    are not both zero, and both constructions raise ZeroDivisionError. *)
Lemma block_init_division_counterexample :
  (0 < 1 ∨ 0 < -3) ∧
  (1 * 3 * 3 + 3 * -3 = 0 ∧ ¬ (1 = 0 ∧ -3 = 0)) ∧
  BasicBlock.init 1 (-3) Conv3DSimple.builder 1 None = Raise ZeroDivisionError ∧
  Bottleneck.init 1 (-3) Conv3DSimple.builder 1 None = Raise ZeroDivisionError.
Proof.
  split; [left; lia|]. split; [split; [reflexivity|lia]|].
  split; reflexivity.
Qed.

(** ** The blocks *)

Lemma BasicBlock_init_inv inplanes planes conv_builder stride downsample b :
  BasicBlock.init inplanes planes conv_builder stride downsample = Ok b →
  ∃ mid,
    BasicBlock.midplanes inplanes planes = Ok mid ∧
    b = {| BasicBlock.conv1 :=
             [ LConv (build conv_builder inplanes planes (Some mid) (Some stride));
               LBatchNorm (BatchNorm3d.init planes); LReLU true ];
           BasicBlock.conv2 :=
             [ LConv (build conv_builder planes planes (Some mid) None);
               LBatchNorm (BatchNorm3d.init planes) ];
           BasicBlock.relu := LReLU true;
           BasicBlock.downsample := downsample;
           BasicBlock.stride := stride |}.
Proof.
  unfold BasicBlock.init. intros Hb.
  apply bind_Ok_inv in Hb as (mid & Hmid & [= <-]). eauto.
Qed.

Lemma Bottleneck_init_inv inplanes planes conv_builder stride downsample b :
  Bottleneck.init inplanes planes conv_builder stride downsample = Ok b →
  ∃ mid,
    Bottleneck.midplanes inplanes planes = Ok mid ∧
    b = {| Bottleneck.conv1 :=
             [ LConv (Conv3d.init inplanes planes (_triple 1) (_triple 1) (_triple 0) false);
               LBatchNorm (BatchNorm3d.init planes); LReLU true ];
           Bottleneck.conv2 :=
             [ LConv (build conv_builder planes planes (Some mid) (Some stride));
               LBatchNorm (BatchNorm3d.init planes); LReLU true ];
           Bottleneck.conv3 :=
             [ LConv (Conv3d.init planes (planes * Bottleneck.expansion)
                        (_triple 1) (_triple 1) (_triple 0) false);
               LBatchNorm (BatchNorm3d.init (planes * Bottleneck.expansion)) ];
           Bottleneck.relu := LReLU true;
           Bottleneck.downsample := downsample;
           Bottleneck.stride := stride |}.
Proof.
  unfold Bottleneck.init. intros Hb.
  apply bind_Ok_inv in Hb as (mid & Hmid & [= <-]). eauto.
Qed.

(** C4: a BasicBlock has as [conv1] a convolution, a normalisation and an
    activation, and as [conv2] a convolution and a normalisation, where with
    [Conv3DSimple] the first convolution has the given stride and the second
    has stride 1; on every input,
    in every store, its forward pass returns
    [activate(conv2(conv1(x)) + residual)], where the residual is
    [downsample(x)] when a downsample path was given at construction and the
    input itself otherwise, and raises exactly when that computation does. *)
Theorem BasicBlock_forward_value (T : Type) (ops : TensorOps T) (training : bool)
    (inplanes planes stride : Z) (conv_builder : ConvBuilder)
    (downsample : option Sequential) (b : BasicBlock.t) :
  BasicBlock.init inplanes planes conv_builder stride downsample = Ok b →
  ∃ conv1 norm1 conv2 norm2,
    BasicBlock.conv1 b = [LConv conv1; LBatchNorm norm1; LReLU true] ∧
    BasicBlock.conv2 b = [LConv conv2; LBatchNorm norm2] ∧
    (conv_builder = Conv3DSimple.builder →
       Conv3d.kernel_size conv1 = (3, 3, 3) ∧
       Conv3d.stride conv1 = (stride, stride, stride) ∧
       Conv3d.kernel_size conv2 = (3, 3, 3) ∧
       Conv3d.stride conv2 = (1, 1, 1)) ∧
    ∀ (h : list T) (x : ref) (v : T),
      h !! x = Some v →
      computes (BasicBlock.forward training b x) h
        (a ← conv3d conv1 v; a ← batch_norm training norm1 a;
         let c1 := relu_value a in
         a ← conv3d conv2 c1; c2 ← batch_norm training norm2 a;
         residual ← match downsample with
                    | Some downsample => Sequential_value training downsample v
                    | None => Ok v
                    end;
         s ← add_ c2 residual;
         Ok (relu_value s))
        (frame_inplace x h).
Proof.
  intros Hb. apply BasicBlock_init_inv in Hb as (mid & _ & ->).
  do 4 eexists. split; [reflexivity|]. split; [reflexivity|].
  split; [by intros ->|].
  intros h x v Hx.
  match goal with
  | |- computes (BasicBlock.forward _ ?b _) _ _ _ =>
      pose proof (BasicBlock_forward_computes training b h x v I Hx) as Hc
  end.
  unfold BasicBlock_value in Hc. cbn in Hc.
  match type of Hc with
  | computes _ _ ?r _ =>
      match goal with
      | |- computes _ _ ?r' _ => assert (r' = r) as ->; [|exact Hc]
      end
  end.
  destruct (conv3d _ v) as [a|e]; [|done]. cbn.
  destruct (batch_norm training _ a) as [a'|e]; [|done]. cbn.
  destruct (conv3d _ (relu_value a')) as [a2|e]; [|done]. cbn.
  destruct (batch_norm training _ a2) as [a3|e]; done.
Qed.

Lemma BasicBlock_forward_value_witness :
  ∃ b, BasicBlock.init 64 128 Conv3DSimple.builder 2
         (downsample_path BasicBlockClass Conv3DSimple.builder 128 2 64) = Ok b ∧
       ∃ out h',
         run (BasicBlock.forward true b 0%nat) [[2; 64; 16; 16; 16]]
           = Ok (out, h') ∧
         h' !! out = Some [2; 128; 8; 8; 8] ∧
         h' !! 0%nat = Some [2; 64; 16; 16; 16].
Proof.
  eexists. split; [vm_compute; reflexivity|].
  edestruct (BasicBlock_forward_value Shape ShapeOps true 64 128 2
               Conv3DSimple.builder
               (downsample_path BasicBlockClass Conv3DSimple.builder 128 2 64))
    as (c1 & n1 & c2 & n2 & Hc1 & Hc2 & _ & Hrun);
    [vm_compute; reflexivity|].
  injection Hc1 as <- <-. injection Hc2 as <- <-.
  specialize (Hrun [[2; 64; 16; 16; 16]] 0%nat [2; 64; 16; 16; 16] eq_refl).
  vm_compute in Hrun. destruct Hrun as (out & h' & Hrun & Hout & _).
  injection Hrun as <- <-.
  do 2 eexists. split; [vm_compute; reflexivity|]. split; reflexivity.
Defined.

(** C7: the expansion factor is a constant of the block class, 1 for
    BasicBlock and 4 for Bottleneck; the third stage of a Bottleneck is a
    1x1x1 convolution from [planes] to [planes * 4] channels followed by a
    normalisation, and its result enters the residual addition without an
    activation in between. *)
Theorem Bottleneck_expansion_conv3 (T : Type) (ops : TensorOps T) (training : bool)
    (inplanes planes stride : Z) (conv_builder : ConvBuilder)
    (downsample : option Sequential) (b : Bottleneck.t) :
  Bottleneck.init inplanes planes conv_builder stride downsample = Ok b →
  block_expansion BasicBlockClass = 1 ∧
  block_expansion BottleneckClass = 4 ∧
  ∃ conv3 norm3,
    Bottleneck.conv3 b = [LConv conv3; LBatchNorm norm3] ∧
    Conv3d.kernel_size conv3 = (1, 1, 1) ∧
    Conv3d.in_channels conv3 = planes ∧
    Conv3d.out_channels conv3 = planes * 4 ∧
    Conv3d.bias conv3 = None ∧
    BatchNorm3d.num_features norm3 = planes * 4 ∧
    ∀ (h : list T) (x : ref) (v : T),
      h !! x = Some v →
      computes (Bottleneck.forward training b x) h
        (c1 ← Sequential_value training (Bottleneck.conv1 b) v;
         c2 ← Sequential_value training (Bottleneck.conv2 b) c1;
         a ← conv3d conv3 c2; c3 ← batch_norm training norm3 a;
         residual ← match downsample with
                    | Some downsample => Sequential_value training downsample v
                    | None => Ok v
                    end;
         s ← add_ c3 residual;
         Ok (relu_value s))
        (frame_inplace x h).
Proof.
  intros Hb. apply Bottleneck_init_inv in Hb as (mid & _ & ->).
  split; [done|]. split; [done|].
  do 2 eexists. split; [reflexivity|]. repeat split.
  intros h x v Hx.
  match goal with
  | |- computes (Bottleneck.forward _ ?b _) _ _ _ =>
      pose proof (Bottleneck_forward_computes training b h x v I Hx) as Hc
  end.
  unfold Bottleneck_value in Hc.
  match type of Hc with
  | computes _ _ ?r _ =>
      match goal with
      | |- computes _ _ ?r' _ => assert (r' = r) as ->; [|exact Hc]
      end
  end.
  cbn [Bottleneck.conv1 Bottleneck.conv2 Bottleneck.conv3 Bottleneck.relu
       Bottleneck.downsample].
  destruct (Sequential_value training _ v) as [c1|e]; [|done].
  rewrite !bind_Ok.
  destruct (Sequential_value training _ c1) as [c2|e]; [|done].
  rewrite !bind_Ok. cbn [Sequential_value Layer_value].
  destruct (conv3d _ c2) as [a|e]; [|done]. rewrite !bind_Ok.
  destruct (batch_norm training _ a) as [c3|e]; done.
Qed.

Lemma Bottleneck_expansion_conv3_witness :
  ∃ b conv3 norm3,
    Bottleneck.init 64 64 Conv3DSimple.builder 1 None = Ok b ∧
    Bottleneck.conv3 b = [LConv conv3; LBatchNorm norm3] ∧
    Conv3d.out_channels conv3 = 64 * 4.
Proof.
  eexists.
  edestruct (Bottleneck_expansion_conv3 Shape ShapeOps true 64 64 1
               Conv3DSimple.builder None)
    as (_ & _ & conv3 & norm3 & Hconv3 & _ & _ & Hout & _);
    [vm_compute; reflexivity|].
  exists conv3, norm3. split; [reflexivity|]. split; [exact Hconv3|exact Hout].
Defined.

(** ** The stem *)

(** C8: the stem is one convolution with kernel (7, 7, 7), stride (2, 2, 2),
    padding (3, 3, 3) and no bias from 1 to 64 channels, then a
    normalisation over 64 channels, then an activation, applied in this
    order; the network [r3d_18] builds has this stem, initialised. *)
Theorem BasicStem_structure :
  ∃ conv norm,
    BasicStem.init tt = [LConv conv; LBatchNorm norm; LReLU true] ∧
    Conv3d.in_channels conv = 1 ∧
    Conv3d.out_channels conv = 64 ∧
    Conv3d.kernel_size conv = (7, 7, 7) ∧
    Conv3d.stride conv = (2, 2, 2) ∧
    Conv3d.padding conv = (3, 3, 3) ∧
    Conv3d.bias conv = None ∧
    BatchNorm3d.num_features norm = 64 ∧
    (∀ (T : Type) (ops : TensorOps T) (training : bool) (v : T),
       Sequential_value training (BasicStem.init tt) v =
       (a ← conv3d conv v; a ← batch_norm training norm a; Ok (relu_value a))) ∧
    (∀ pretrained progress kwargs net,
       r3d_18 pretrained progress kwargs = Ok net →
       VideoResNet.stem net
       = map VideoResNet.initialize_module (BasicStem.init tt)).
Proof.
  do 2 eexists. split; [reflexivity|]. do 7 (split; [reflexivity|]). split.
  - intros T ops training v. reflexivity.
  - intros pretrained progress kwargs net Hnet.
    apply r3d_18_Ok_inv in Hnet. vm_compute in Hnet. by injection Hnet as <-.
Qed.

(** ** Assembling the network *)

Lemma index_Ok_inv {A} (xs : list A) (i : nat) (a : A) :
  index xs i = Ok a → xs !! i = Some a.
Proof. unfold index. by destruct (xs !! i) as [a'|]; intros [= <-]. Qed.

(** Every Bottleneck lacks the attribute the loop reads. *)
Lemma zero_init_module_Bottle (b : Bottleneck.t) :
  VideoResNet.zero_init_module (Bottle b) = Raise (AttributeError "Bottleneck" "bn3").
Proof. reflexivity. Qed.

Lemma mapR_zero_init_inv (ms ms' : list Block) :
  mapR VideoResNet.zero_init_module ms = Ok ms' →
  ms' = ms ∧ ∀ b, Bottle b ∉ ms.
Proof.
  revert ms'. induction ms as [|m ms IH]; intros ms'; cbn [mapR].
  - intros [= <-]. split; [done|]. intros b Hb. by apply elem_of_nil in Hb.
  - intros Hms. apply bind_Ok_inv in Hms as (m' & Hm & Hms).
    apply bind_Ok_inv in Hms as (ms0 & Hrec & [= <-]).
    destruct (IH _ Hrec) as [-> Hno].
    destruct m as [b|b]; [|by rewrite zero_init_module_Bottle in Hm].
    injection Hm as <-. split; [done|].
    intros b' [[=]|Hb']%elem_of_cons. by eapply Hno.
Qed.

Lemma zero_init_residual_loop_inv (self net : VideoResNet.t) :
  VideoResNet.zero_init_residual_loop self = Ok net → net = self.
Proof.
  unfold VideoResNet.zero_init_residual_loop. intros H.
  apply bind_Ok_inv in H as (l1 & [-> _]%mapR_zero_init_inv & H).
  apply bind_Ok_inv in H as (l2 & [-> _]%mapR_zero_init_inv & H).
  apply bind_Ok_inv in H as (l3 & [-> _]%mapR_zero_init_inv & H).
  apply bind_Ok_inv in H as (l4 & [-> _]%mapR_zero_init_inv & [= <-]).
  by destruct self.
Qed.

(** The option [zero_init_residual] only adds the loop after the
    construction. *)
Lemma init_zero_init_residual block conv_makers layers stem num_classes z :
  VideoResNet.init block conv_makers layers stem num_classes z =
  (self ← VideoResNet.init block conv_makers layers stem num_classes false;
   if z then VideoResNet.zero_init_residual_loop self else Ok self).
Proof.
  unfold VideoResNet.init.
  repeat match goal with
         | |- (?m ≫= _) = _ =>
             destruct m as [[]|?]; rewrite ?bind_Ok; [|reflexivity]
         | |- (?m ≫= _) = _ =>
             destruct m as [?|?]; rewrite ?bind_Ok; [|reflexivity]
         end.
  reflexivity.
Qed.

(** What [__init__] has built when it returns. *)
Lemma VideoResNet_init_inv block conv_makers layers stem num_classes z net :
  VideoResNet.init block conv_makers layers stem num_classes z = Ok net →
  ∃ cm1 cm2 cm3 cm4 n1 n2 n3 n4 l1 l2 l3 l4 i1 i2 i3 i4,
    conv_makers !! 0%nat = Some cm1 ∧ layers !! 0%nat = Some n1 ∧
    conv_makers !! 1%nat = Some cm2 ∧ layers !! 1%nat = Some n2 ∧
    conv_makers !! 2%nat = Some cm3 ∧ layers !! 2%nat = Some n3 ∧
    conv_makers !! 3%nat = Some cm4 ∧ layers !! 3%nat = Some n4 ∧
    VideoResNet._make_layer block cm1 64 n1 1 64 = Ok (l1, i1) ∧
    VideoResNet._make_layer block cm2 128 n2 2 i1 = Ok (l2, i2) ∧
    VideoResNet._make_layer block cm3 192 n3 2 i2 = Ok (l3, i3) ∧
    VideoResNet._make_layer block cm4 256 n4 2 i3 = Ok (l4, i4) ∧
    net = VideoResNet._initialize_weights
            {| VideoResNet.inplanes := i4;
               VideoResNet.stem := stem tt;
               VideoResNet.layer1 := l1; VideoResNet.layer2 := l2;
               VideoResNet.layer3 := l3; VideoResNet.layer4 := l4;
               VideoResNet.avgpool := LAdaptiveAvgPool3d (1, 1, 1) |}.
Proof.
  rewrite init_zero_init_residual. intros H.
  apply bind_Ok_inv in H as (self & Hself & Hz).
  assert (net = self) as ->.
  { destruct z; [by apply zero_init_residual_loop_inv|by injection Hz]. }
  clear Hz. unfold VideoResNet.init in Hself.
  apply bind_Ok_inv in Hself as (cm1 & ?%index_Ok_inv & H).
  apply bind_Ok_inv in H as (n1 & ?%index_Ok_inv & H).
  apply bind_Ok_inv in H as ([l1 i1] & ? & H).
  apply bind_Ok_inv in H as (cm2 & ?%index_Ok_inv & H).
  apply bind_Ok_inv in H as (n2 & ?%index_Ok_inv & H).
  apply bind_Ok_inv in H as ([l2 i2] & ? & H).
  apply bind_Ok_inv in H as (cm3 & ?%index_Ok_inv & H).
  apply bind_Ok_inv in H as (n3 & ?%index_Ok_inv & H).
  apply bind_Ok_inv in H as ([l3 i3] & ? & H).
  apply bind_Ok_inv in H as (cm4 & ?%index_Ok_inv & H).
  apply bind_Ok_inv in H as (n4 & ?%index_Ok_inv & H).
  apply bind_Ok_inv in H as ([l4 i4] & ? & H).
  injection H as <-.
  exists cm1, cm2, cm3, cm4, n1, n2, n3, n4, l1, l2, l3, l4, i1, i2, i3, i4.
  repeat split; done.
Qed.

(** A stage of two blocks. *)
Lemma _make_layer_two block conv_builder planes stride inplanes layers inplanes' :
  VideoResNet._make_layer block conv_builder planes 2 stride inplanes
    = Ok (layers, inplanes') →
  inplanes' = planes * block_expansion block ∧
  ∃ first second,
    layers = [first; second] ∧
    block_init block inplanes planes conv_builder stride
      (downsample_path block conv_builder planes stride inplanes) = Ok first ∧
    block_init block (planes * block_expansion block) planes conv_builder 1 None
      = Ok second.
Proof.
  intros Hl.
  apply _make_layer_inv in Hl as (-> & first & rest & -> & Hfirst & Hlen & Hrest).
  split; [done|]. destruct rest as [|second [|third rest]]; try done.
  exists first, second. split; [done|]. split; [done|].
  apply Hrest. by left.
Qed.

(** C6: with two blocks per stage the assembler builds four stages, in
    order, with (planes, stride) = (64, 1), (128, 2), (192, 2), (256, 2); in
    each stage the first block is built from the running channel count with
    the requested stride and the downsample path, the running count becomes
    [planes * expansion], and the second block is built at that width with
    stride 1 and without a downsample path. *)
Theorem VideoResNet_stages (block : BlockClass) (cb1 cb2 cb3 cb4 : ConvBuilder)
    (stem : unit → Sequential) (num_classes : Z) (zero_init_residual : bool)
    (net : VideoResNet.t) :
  VideoResNet.init block [cb1; cb2; cb3; cb4] [2; 2; 2; 2] stem num_classes
    zero_init_residual = Ok net →
  let e := block_expansion block in
  ∃ f1 s1 f2 s2 f3 s3 f4 s4,
    block_init block 64 64 cb1 1 (downsample_path block cb1 64 1 64) = Ok f1 ∧
    block_init block (64 * e) 64 cb1 1 None = Ok s1 ∧
    VideoResNet.layer1 net = initialized [f1; s1] ∧
    block_init block (64 * e) 128 cb2 2 (downsample_path block cb2 128 2 (64 * e))
      = Ok f2 ∧
    block_init block (128 * e) 128 cb2 1 None = Ok s2 ∧
    VideoResNet.layer2 net = initialized [f2; s2] ∧
    block_init block (128 * e) 192 cb3 2 (downsample_path block cb3 192 2 (128 * e))
      = Ok f3 ∧
    block_init block (192 * e) 192 cb3 1 None = Ok s3 ∧
    VideoResNet.layer3 net = initialized [f3; s3] ∧
    block_init block (192 * e) 256 cb4 2 (downsample_path block cb4 256 2 (192 * e))
      = Ok f4 ∧
    block_init block (256 * e) 256 cb4 1 None = Ok s4 ∧
    VideoResNet.layer4 net = initialized [f4; s4] ∧
    VideoResNet.inplanes net = 256 * e.
Proof.
  intros Hnet e.
  apply VideoResNet_init_inv in Hnet
    as (cm1 & cm2 & cm3 & cm4 & n1 & n2 & n3 & n4 & l1 & l2 & l3 & l4
        & i1 & i2 & i3 & i4 & Hc1 & Hn1 & Hc2 & Hn2 & Hc3 & Hn3 & Hc4 & Hn4
        & H1 & H2 & H3 & H4 & ->).
  injection Hc1 as <-. injection Hc2 as <-. injection Hc3 as <-. injection Hc4 as <-.
  injection Hn1 as <-. injection Hn2 as <-. injection Hn3 as <-. injection Hn4 as <-.
  apply _make_layer_two in H1 as (-> & f1 & s1 & -> & Hf1 & Hs1).
  apply _make_layer_two in H2 as (-> & f2 & s2 & -> & Hf2 & Hs2).
  apply _make_layer_two in H3 as (-> & f3 & s3 & -> & Hf3 & Hs3).
  apply _make_layer_two in H4 as (-> & f4 & s4 & -> & Hf4 & Hs4).
  exists f1, s1, f2, s2, f3, s3, f4, s4. repeat split; done.
Qed.

Lemma VideoResNet_stages_witness :
  ∃ net s1 s2 s3 s4,
    r3d_18 false true no_kwargs = Ok net ∧
    VideoResNet.layer1 net = initialized s1 ∧ length s1 = 2%nat ∧
    VideoResNet.layer2 net = initialized s2 ∧ length s2 = 2%nat ∧
    VideoResNet.layer3 net = initialized s3 ∧ length s3 = 2%nat ∧
    VideoResNet.layer4 net = initialized s4 ∧ length s4 = 2%nat ∧
    VideoResNet.inplanes net = 256.
Proof.
  eexists.
  edestruct (VideoResNet_stages BasicBlockClass Conv3DSimple.builder
               Conv3DSimple.builder Conv3DSimple.builder Conv3DSimple.builder
               BasicStem.init 2 false)
    as (f1 & s1 & f2 & s2 & f3 & s3 & f4 & s4 & _ & _ & H1 & _ & _ & H2
        & _ & _ & H3 & _ & _ & H4 & Hin);
    [vm_compute; reflexivity|].
  exists [f1; s1], [f2; s2], [f3; s3], [f4; s4].
  split; [vm_compute; reflexivity|].
  split; [exact H1|]. split; [reflexivity|].
  split; [exact H2|]. split; [reflexivity|].
  split; [exact H3|]. split; [reflexivity|].
  split; [exact H4|]. split; [reflexivity|].
  exact Hin.
Defined.

(** ** Weight initialisation *)

Lemma elem_of_map {A B} (f : A → B) (l : list A) (y : B) :
  y ∈ map f l ↔ ∃ x, y = f x ∧ x ∈ l.
Proof.
  rewrite list_elem_of_In, in_map_iff. split.
  - intros (x & <- & Hx). exists x. by rewrite list_elem_of_In.
  - intros (x & -> & Hx). exists x. by rewrite <- list_elem_of_In.
Qed.

Section MapModules.
Variable f : Layer → Layer.

Lemma modules_Sequential_map (s : Sequential) (l : Layer) :
  VideoResNet.MLayer l ∈ VideoResNet.modules_Sequential (map f s) → ∃ l0, l = f l0.
Proof.
  unfold VideoResNet.modules_Sequential.
  intros [[=]|Hl]%elem_of_cons.
  apply elem_of_map in Hl as (l' & [= ->] & Hl').
  apply elem_of_map in Hl' as (l0 & -> & _). eauto.
Qed.

Lemma modules_downsample_map (s : option Sequential) (l : Layer) :
  VideoResNet.MLayer l ∈ VideoResNet.modules_downsample (option_map (map f) s) →
  ∃ l0, l = f l0.
Proof.
  destruct s as [s|]; cbn.
  - apply modules_Sequential_map.
  - by intros ?%elem_of_nil.
Qed.

Lemma modules_Block_map (m : Block) (l : Layer) :
  VideoResNet.MLayer l ∈ VideoResNet.modules_Block (VideoResNet.map_Block f m) →
  ∃ l0, l = f l0.
Proof.
  destruct m as [b|b]; unfold VideoResNet.modules_Block, VideoResNet.map_Block;
    cbn [BasicBlock.conv1 BasicBlock.conv2 BasicBlock.relu BasicBlock.downsample
    Bottleneck.conv1 Bottleneck.conv2 Bottleneck.conv3 Bottleneck.relu
    Bottleneck.downsample];
    rewrite elem_of_cons, !elem_of_app, list_elem_of_singleton;
    intros Hl; destruct_or!; try discriminate;
    eauto using modules_Sequential_map, modules_downsample_map;
    injection Hl as ->; eauto.
Qed.

Lemma modules_Stage_map (ms : list Block) (l : Layer) :
  VideoResNet.MLayer l ∈ VideoResNet.modules_Stage (map (VideoResNet.map_Block f) ms) →
  ∃ l0, l = f l0.
Proof.
  unfold VideoResNet.modules_Stage. intros [[=]|Hl]%elem_of_cons.
  rewrite list_elem_of_In in Hl. apply in_concat in Hl as (ml & Hml & Hl).
  apply in_map_iff in Hml as (m' & <- & Hm').
  apply in_map_iff in Hm' as (m & <- & _).
  rewrite <- list_elem_of_In in Hl. eauto using modules_Block_map.
Qed.

Lemma modules_map (net : VideoResNet.t) (l : Layer) :
  VideoResNet.MLayer l ∈ VideoResNet.modules (VideoResNet.map_modules f net) →
  ∃ l0, l = f l0.
Proof.
  unfold VideoResNet.modules, VideoResNet.map_modules.
  cbn [VideoResNet.stem VideoResNet.layer1 VideoResNet.layer2
       VideoResNet.layer3 VideoResNet.layer4 VideoResNet.avgpool].
  rewrite elem_of_cons, !elem_of_app, list_elem_of_singleton.
  intros Hl; destruct_or!; try discriminate;
    eauto using modules_Sequential_map, modules_Stage_map.
  injection Hl as ->; eauto.
Qed.
End MapModules.

(** Among the modules of a network that [__init__] returned, every
    convolution has the fan-out Kaiming-normal weight and every
    normalisation has scale 1 and shift 0. *)
Lemma init_modules_initialized block conv_makers layers stem num_classes z net l :
  VideoResNet.init block conv_makers layers stem num_classes z = Ok net →
  VideoResNet.MLayer l ∈ VideoResNet.modules net →
  match l with
  | LConv c => Conv3d.weight c = KaimingNormal "fan_out" "relu" ∧
               (Conv3d.bias c = None ∨ Conv3d.bias c = Some (Constant 0))
  | LBatchNorm b => BatchNorm3d.weight b = Constant 1 ∧
                    BatchNorm3d.bias b = Constant 0
  | _ => True
  end.
Proof.
  intros Hnet Hl. apply VideoResNet_init_inv in Hnet
    as (cm1 & cm2 & cm3 & cm4 & n1 & n2 & n3 & n4 & l1 & l2 & l3 & l4
        & i1 & i2 & i3 & i4 & _ & _ & _ & _ & _ & _ & _ & _ & _ & _ & _ & _ & ->).
  apply modules_map in Hl as (l0 & ->).
  destruct l0 as [c|b|?|?]; cbn; try done.
  split; [done|]. destruct (Conv3d.bias c); auto.
Qed.

(** The first half of C3: after [__init__] every 3D batch normalisation of
    the network has scale 1 and shift 0. *)
Lemma init_BatchNorm3d block conv_makers layers stem num_classes z net b :
  VideoResNet.init block conv_makers layers stem num_classes z = Ok net →
  VideoResNet.MLayer (LBatchNorm b) ∈ VideoResNet.modules net →
  BatchNorm3d.weight b = Constant 1 ∧ BatchNorm3d.bias b = Constant 0.
Proof. intros Hnet Hb. apply (init_modules_initialized _ _ _ _ _ _ _ _ Hnet Hb). Qed.

(** C3, the second half, on the code: whenever a Bottleneck network can be
    built, building it with [zero_init_residual] enabled raises
    [AttributeError]: the loop reads [m.bn3], and a Bottleneck has no
    attribute of that name (its last normalisation is [m.conv3[1]]).  No
    scale parameter is set to 0. *)
Theorem zero_init_residual_raises (conv_makers : list ConvBuilder)
    (layers : list Z) (stem : unit → Sequential) (num_classes : Z)
    (net : VideoResNet.t) :
  VideoResNet.init BottleneckClass conv_makers layers stem num_classes false
    = Ok net →
  VideoResNet.init BottleneckClass conv_makers layers stem num_classes true
    = Raise (AttributeError "Bottleneck" "bn3").
Proof.
  intros Hnet. rewrite init_zero_init_residual, Hnet, bind_Ok.
  apply VideoResNet_init_inv in Hnet
    as (cm1 & cm2 & cm3 & cm4 & n1 & n2 & n3 & n4 & l1 & l2 & l3 & l4
        & i1 & i2 & i3 & i4 & _ & _ & _ & _ & _ & _ & _ & _ & H1 & _ & _ & _ & ->).
  apply _make_layer_inv in H1 as (_ & first & rest & -> & Hfirst & _).
  cbn [block_init] in Hfirst. apply fmap_Ok_inv in Hfirst as (b & _ & ->).
  reflexivity.
Qed.

Lemma zero_init_residual_raises_witness :
  VideoResNet.init BottleneckClass (replicate 4 Conv3DSimple.builder)
    [3; 4; 6; 3] BasicStem.init 2 true
  = Raise (AttributeError "Bottleneck" "bn3").
Proof.
  eapply zero_init_residual_raises. vm_compute. reflexivity.
Defined.

(** ** The entry points *)

(** C9: [pretrained] and [progress] do not reach the constructor: for equal
    keyword arguments [r3d_18] and [_video_resnet] return the same result
    whatever the two are, [_video_resnet] is the constructor call on its
    keyword arguments, [r3d_18] is the constructor call with BasicBlock, four
    times Conv3DSimple, layers [2, 2, 2, 2] and BasicStem, and every
    parameter of the returned network is as [_initialize_weights] left it:
    nothing is loaded. *)
Theorem pretrained_progress_ignored (pretrained progress pretrained' progress' : bool)
    (arch : string) (kwargs : Kwargs) :
  r3d_18 pretrained progress kwargs = r3d_18 pretrained' progress' kwargs ∧
  _video_resnet arch pretrained progress kwargs
    = _video_resnet arch pretrained' progress' kwargs ∧
  _video_resnet arch pretrained progress kwargs = VideoResNet_call kwargs ∧
  (kw_block kwargs = None → kw_conv_makers kwargs = None →
   kw_layers kwargs = None → kw_stem kwargs = None →
   r3d_18 pretrained progress kwargs
   = VideoResNet.init BasicBlockClass (replicate 4 Conv3DSimple.builder)
       [2; 2; 2; 2] BasicStem.init
       (default 2 (kw_num_classes kwargs))
       (default false (kw_zero_init_residual kwargs))) ∧
  (∀ net l,
     r3d_18 pretrained progress kwargs = Ok net →
     VideoResNet.MLayer l ∈ VideoResNet.modules net →
     match l with
     | LConv c => Conv3d.weight c = KaimingNormal "fan_out" "relu" ∧
                  Conv3d.bias c = None
     | LBatchNorm b => BatchNorm3d.weight b = Constant 1 ∧
                       BatchNorm3d.bias b = Constant 0
     | _ => True
     end).
Proof.
  assert (∀ p g, _video_resnet arch p g kwargs = VideoResNet_call kwargs) as Hcall.
  { intros p g. unfold _video_resnet. by destruct (VideoResNet_call kwargs). }
  assert (kw_block kwargs = None → kw_conv_makers kwargs = None →
          kw_layers kwargs = None → kw_stem kwargs = None →
          r3d_18 pretrained progress kwargs
          = VideoResNet.init BasicBlockClass (replicate 4 Conv3DSimple.builder)
              [2; 2; 2; 2] BasicStem.init
              (default 2 (kw_num_classes kwargs))
              (default false (kw_zero_init_residual kwargs))) as Hinit.
  { intros Hb Hc Hl Hs. unfold r3d_18. rewrite Hb, Hc, Hl, Hs.
    unfold _video_resnet, VideoResNet_call. cbn [kw_block kw_conv_makers
      kw_layers kw_stem kw_num_classes kw_zero_init_residual].
    by destruct (VideoResNet.init _ _ _ _ _ _). }
  split; [reflexivity|]. split; [by rewrite !Hcall|]. split; [apply Hcall|].
  split; [exact Hinit|].
  intros net l Hnet Hl.
  assert (r3d_18 false true no_kwargs = Ok net) as Hnet0 by by eapply r3d_18_Ok_inv.
  rewrite Hinit in Hnet.
  - pose proof (init_modules_initialized _ _ _ _ _ _ _ _ Hnet Hl) as Hl'.
    destruct l as [c|b|?|?]; try done. split; [apply Hl'|].
    clear Hnet Hl'. vm_compute in Hnet0. injection Hnet0 as <-.
    revert Hl. unfold VideoResNet.modules.
    cbn -[elem_of].
    rewrite !elem_of_cons, elem_of_nil.
    intros Hl; destruct_or!; try discriminate; try done;
      by injection Hl as ->.
  - unfold r3d_18 in Hnet. by destruct (kw_block kwargs).
  - unfold r3d_18 in Hnet.
    by destruct (kw_block kwargs), (kw_conv_makers kwargs).
  - unfold r3d_18 in Hnet.
    by destruct (kw_block kwargs), (kw_conv_makers kwargs), (kw_layers kwargs).
  - unfold r3d_18 in Hnet.
    by destruct (kw_block kwargs), (kw_conv_makers kwargs), (kw_layers kwargs),
      (kw_stem kwargs).
Qed.

Lemma pretrained_progress_ignored_witness :
  r3d_18 true false no_kwargs = r3d_18 false true no_kwargs ∧
  ∃ net, r3d_18 true false no_kwargs = Ok net.
Proof.
  split.
  - exact (proj1 (pretrained_progress_ignored true false false true "r3d_18" no_kwargs)).
  - eexists. vm_compute. reflexivity.
Defined.

(** * Further properties *)

(** ** Shapes do not depend on the initialisation *)

Section InitializedShapes.
Variable training : bool.
Implicit Types (v : Shape).

Lemma Layer_value_initialize m v :
  Layer_value training (VideoResNet.initialize_module m) v
  = Layer_value training m v.
Proof. by destruct m. Qed.

Lemma Sequential_value_initialize ms v :
  Sequential_value training (map VideoResNet.initialize_module ms) v
  = Sequential_value training ms v.
Proof.
  revert v. induction ms as [|m ms IH]; intros v; [done|].
  cbn [map Sequential_value]. rewrite Layer_value_initialize.
  destruct (Layer_value training m v) as [w|e]; [|done].
  rewrite !bind_Ok. apply IH.
Qed.

Lemma residual_value_initialize ds v :
  residual_value training (option_map (map VideoResNet.initialize_module) ds) v
  = residual_value training ds v.
Proof. destruct ds; [apply Sequential_value_initialize|done]. Qed.

Lemma Block_value_initialize m v :
  Block_value training (VideoResNet.map_Block VideoResNet.initialize_module m) v
  = Block_value training m v.
Proof.
  destruct m as [b|b]; cbn [Block_value VideoResNet.map_Block];
    unfold BasicBlock_value, Bottleneck_value;
    cbn [BasicBlock.conv1 BasicBlock.conv2 BasicBlock.relu BasicBlock.downsample
         Bottleneck.conv1 Bottleneck.conv2 Bottleneck.conv3 Bottleneck.relu
         Bottleneck.downsample];
    rewrite !Sequential_value_initialize, residual_value_initialize.
  - destruct (Sequential_value training (BasicBlock.conv1 b) v) as [c1|]; [|done].
    rewrite !bind_Ok. rewrite Sequential_value_initialize.
    destruct (Sequential_value training (BasicBlock.conv2 b) c1) as [c2|]; [|done].
    rewrite !bind_Ok.
    destruct (residual_value training (BasicBlock.downsample b) v) as [r|]; [|done].
    rewrite !bind_Ok. destruct (add_ c2 r) as [s|]; [|done].
    rewrite !bind_Ok. apply Layer_value_initialize.
  - destruct (Sequential_value training (Bottleneck.conv1 b) v) as [c1|]; [|done].
    rewrite !bind_Ok. rewrite Sequential_value_initialize.
    destruct (Sequential_value training (Bottleneck.conv2 b) c1) as [c2|]; [|done].
    rewrite !bind_Ok. rewrite Sequential_value_initialize.
    destruct (Sequential_value training (Bottleneck.conv3 b) c2) as [c3|]; [|done].
    rewrite !bind_Ok.
    destruct (residual_value training (Bottleneck.downsample b) v) as [r|]; [|done].
    rewrite !bind_Ok. destruct (add_ c3 r) as [s|]; [|done].
    rewrite !bind_Ok. apply Layer_value_initialize.
Qed.

Lemma Stage_value_initialized ms v :
  Stage_value training (initialized ms) v = Stage_value training ms v.
Proof.
  revert v. unfold initialized. induction ms as [|m ms IH]; intros v; [done|].
  cbn [map Stage_value]. rewrite Block_value_initialize.
  destruct (Block_value training m v) as [w|e]; [|done].
  rewrite !bind_Ok. apply IH.
Qed.
End InitializedShapes.

(** ** Shapes of the blocks and stages built with Conv3DSimple *)

Lemma reduce_bounds s d : 1 ≤ s → 1 ≤ d → 1 ≤ reduce s d ≤ d.
Proof.
  intros Hs Hd. unfold reduce.
  assert (0 ≤ (d - 1) / s) by (apply Z.div_pos; lia).
  assert ((d - 1) / s ≤ d - 1) by (apply Z.div_le_upper_bound; nia).
  lia.
Qed.

Ltac block_shape_step Htr :=
  first
  [ rewrite conv3d_shape_3x3 by lia
  | rewrite conv3d_shape_1x1 by lia
  | rewrite batch_norm_shape_ok by (eapply batch_norm_side; [exact Htr|lia..])
  | rewrite add__shape_same
  | rewrite bind_Ok
  | rewrite reduce_1
  | rewrite Z.mul_1_r
  | progress unfold BasicBlock_value, Bottleneck_value, Conv3DSimple.init,
      Conv3DSimple.get_downsample_stride, BatchNorm3d.init, Conv3d.init, _triple
  | progress cbn [Sequential_value Layer_value residual_value
      BasicBlock.conv1 BasicBlock.conv2 BasicBlock.relu BasicBlock.downsample
      Bottleneck.conv1 Bottleneck.conv2 Bottleneck.conv3 Bottleneck.relu
      Bottleneck.downsample conv3d batch_norm relu_value add_ ShapeOps id
      build get_downsample_stride Conv3DSimple.builder Conv3DSimple.init
      Conv3DSimple.get_downsample_stride Conv3d.init BatchNorm3d.init
      default _triple block_expansion BasicBlock.expansion
      Bottleneck.expansion] ].

(** A block built the way [_make_layer] builds the first block of a stage. *)
Lemma Block_value_shape training block inplanes planes stride m n d h w :
  block_init block inplanes planes Conv3DSimple.builder stride
    (downsample_path block Conv3DSimple.builder planes stride inplanes) = Ok m →
  1 ≤ stride → 1 ≤ d → 1 ≤ h → 1 ≤ w →
  training = false ∨
    n * (reduce stride d * reduce stride h * reduce stride w) ≠ 1 →
  1 ≤ n →
  Block_value training m [n; inplanes; d; h; w]
  = Ok [n; planes * block_expansion block;
        reduce stride d; reduce stride h; reduce stride w].
Proof.
  intros Hm Hs Hd Hh Hw Htr Hn.
  pose proof (reduce_bounds stride d Hs Hd).
  pose proof (reduce_bounds stride h Hs Hh).
  pose proof (reduce_bounds stride w Hs Hw).
  destruct block; cbn [block_init] in Hm;
    apply fmap_Ok_inv in Hm as (b & Hb & ->); cbn [Block_value].
  - apply BasicBlock_init_inv in Hb as (mid & _ & ->).
    unfold downsample_path.
    destruct (decide (stride ≠ 1 ∨ inplanes ≠ planes * block_expansion BasicBlockClass))
      as [Hyes|Hno].
    + repeat block_shape_step Htr. reflexivity.
    + assert (stride = 1 ∧ inplanes = planes) as [-> ->].
      { unfold block_expansion, BasicBlock.expansion, Bottleneck.expansion in Hno. lia. }
      repeat block_shape_step Htr. reflexivity.
  - apply Bottleneck_init_inv in Hb as (mid & _ & ->).
    unfold downsample_path.
    destruct (decide (stride ≠ 1 ∨ inplanes ≠ planes * block_expansion BottleneckClass))
      as [Hyes|Hno].
    + repeat block_shape_step Htr. reflexivity.
    + assert (stride = 1 ∧ inplanes = planes * 4) as [-> ->].
      { unfold block_expansion, BasicBlock.expansion, Bottleneck.expansion in Hno. lia. }
      repeat block_shape_step Htr. reflexivity.
Qed.

Lemma downsample_path_same block conv_builder planes :
  downsample_path block conv_builder planes 1 (planes * block_expansion block) = None.
Proof. unfold downsample_path. rewrite decide_False; [done|]. by intros [?|?]. Qed.

(** A stage built by [_make_layer]. *)
Lemma _make_layer_value_shape training block planes blocks stride inplanes
    layers inplanes' n d h w :
  VideoResNet._make_layer block Conv3DSimple.builder planes blocks stride inplanes
    = Ok (layers, inplanes') →
  1 ≤ stride → 1 ≤ d → 1 ≤ h → 1 ≤ w →
  training = false ∨
    n * (reduce stride d * reduce stride h * reduce stride w) ≠ 1 →
  1 ≤ n →
  Stage_value training layers [n; inplanes; d; h; w]
  = Ok [n; planes * block_expansion block;
        reduce stride d; reduce stride h; reduce stride w].
Proof.
  intros Hl Hs Hd Hh Hw Htr Hn.
  apply _make_layer_inv in Hl as (_ & first & rest & -> & Hfirst & _ & Hrest).
  pose proof (reduce_bounds stride d Hs Hd).
  pose proof (reduce_bounds stride h Hs Hh).
  pose proof (reduce_bounds stride w Hs Hw).
  cbn [Stage_value].
  rewrite (Block_value_shape _ _ _ _ _ _ _ _ _ _ Hfirst) by done.
  rewrite bind_Ok. clear Hfirst.
  induction rest as [|m rest IH]; [done|].
  cbn [Stage_value].
  assert (block_init block (planes * block_expansion block) planes
            Conv3DSimple.builder 1
            (downsample_path block Conv3DSimple.builder planes 1
               (planes * block_expansion block)) = Ok m) as Hm.
  { rewrite downsample_path_same. apply Hrest. by left. }
  rewrite (Block_value_shape _ _ _ _ _ _ _ _ _ _ Hm); try lia.
  - rewrite bind_Ok, !reduce_1. apply IH. intros m' Hm'. apply Hrest. by right.
  - by rewrite !reduce_1.
Qed.

(** ** Networks built by [__init__] *)



Lemma block_init_keeps_input block inplanes planes conv_builder stride downsample m :
  block_init block inplanes planes conv_builder stride downsample = Ok m →
  Block_keeps_input (VideoResNet.map_Block VideoResNet.initialize_module m).
Proof.
  destruct block; cbn [block_init]; intros Hm;
    apply fmap_Ok_inv in Hm as (b & Hb & ->).
  - by apply BasicBlock_init_inv in Hb as (mid & _ & ->).
  - by apply Bottleneck_init_inv in Hb as (mid & _ & ->).
Qed.

Lemma _make_layer_keeps_input block conv_builder planes blocks stride inplanes
    layers inplanes' :
  VideoResNet._make_layer block conv_builder planes blocks stride inplanes
    = Ok (layers, inplanes') →
  forallb Block_keeps_input (initialized layers).
Proof.
  intros Hl.
  apply _make_layer_inv in Hl as (_ & first & rest & -> & Hfirst & _ & Hrest).
  cbn [initialized map forallb]. apply andb_True. split.
  - by eapply block_init_keeps_input.
  - clear Hfirst. induction rest as [|m rest IH]; [done|].
    cbn [map forallb]. apply andb_True. split.
    + eapply block_init_keeps_input. apply Hrest. by left.
    + apply IH. intros m' Hm'. apply Hrest. by right.
Qed.

Lemma init_keeps_input block conv_makers layers stem num_classes z net :
  VideoResNet.init block conv_makers layers stem num_classes z = Ok net →
  VideoResNet_keeps_input net.
Proof.
  intros Hnet. apply VideoResNet_init_inv in Hnet
    as (cm1 & cm2 & cm3 & cm4 & n1 & n2 & n3 & n4 & l1 & l2 & l3 & l4
        & i1 & i2 & i3 & i4 & _ & _ & _ & _ & _ & _ & _ & _
        & H1 & H2 & H3 & H4 & ->).
  unfold VideoResNet_keeps_input, VideoResNet._initialize_weights,
    VideoResNet.map_modules.
  cbn [VideoResNet.layer1 VideoResNet.layer2 VideoResNet.layer3 VideoResNet.layer4].
  rewrite !forallb_app, !andb_True.
  repeat split;
    [exact (_make_layer_keeps_input _ _ _ _ _ _ _ _ H1)
    |exact (_make_layer_keeps_input _ _ _ _ _ _ _ _ H2)
    |exact (_make_layer_keeps_input _ _ _ _ _ _ _ _ H3)
    |exact (_make_layer_keeps_input _ _ _ _ _ _ _ _ H4)].
Qed.

Lemma _make_layer_inplanes block conv_builder planes blocks stride inplanes
    layers inplanes' :
  VideoResNet._make_layer block conv_builder planes blocks stride inplanes
    = Ok (layers, inplanes') →
  inplanes' = planes * block_expansion block.
Proof. intros Hl. by apply _make_layer_inv in Hl as (-> & _). Qed.

Lemma block_expansion_positive block : 0 < block_expansion block.
Proof. by destruct block. Qed.

Lemma VideoResNet_value_shape training block layers num_classes z net N D H W :
  VideoResNet.init block (replicate 4 Conv3DSimple.builder) layers
    BasicStem.init num_classes z = Ok net →
  1 ≤ N → 1 ≤ D → 1 ≤ H → 1 ≤ W →
  training = false ∨ N * (halve4 D * halve4 H * halve4 W) ≠ 1 →
  VideoResNet_value training net [N; 1; D; H; W]
  = Ok [N; 256 * block_expansion block].
Proof.
  intros Hnet HN HD HH HW Htr. unfold halve4, halve in Htr.
  apply VideoResNet_init_inv in Hnet
    as (cm1 & cm2 & cm3 & cm4 & n1 & n2 & n3 & n4 & l1 & l2 & l3 & l4
        & i1 & i2 & i3 & i4 & [= <-] & _ & [= <-] & _ & [= <-] & _ & [= <-] & _
        & H1 & H2 & H3 & H4 & ->).
  pose proof (_make_layer_inplanes _ _ _ _ _ _ _ _ H1) as ->.
  pose proof (_make_layer_inplanes _ _ _ _ _ _ _ _ H2) as ->.
  pose proof (_make_layer_inplanes _ _ _ _ _ _ _ _ H3) as ->.
  pose proof (reduce_2_bounds D HD) as HD1.
  pose proof (reduce_2_bounds _ (proj1 HD1)) as HD2.
  pose proof (reduce_2_bounds _ (proj1 HD2)) as HD3.
  pose proof (reduce_2_bounds _ (proj1 HD3)) as HD4.
  pose proof (reduce_2_bounds H HH) as HH1.
  pose proof (reduce_2_bounds _ (proj1 HH1)) as HH2.
  pose proof (reduce_2_bounds _ (proj1 HH2)) as HH3.
  pose proof (reduce_2_bounds _ (proj1 HH3)) as HH4.
  pose proof (reduce_2_bounds W HW) as HW1.
  pose proof (reduce_2_bounds _ (proj1 HW1)) as HW2.
  pose proof (reduce_2_bounds _ (proj1 HW2)) as HW3.
  pose proof (reduce_2_bounds _ (proj1 HW3)) as HW4.
  unfold VideoResNet_value, VideoResNet._initialize_weights, VideoResNet.map_modules.
  cbn [VideoResNet.stem VideoResNet.layer1 VideoResNet.layer2
       VideoResNet.layer3 VideoResNet.layer4 VideoResNet.avgpool].
  rewrite Sequential_value_initialize. unfold BasicStem.init, Conv3d.init,
    BatchNorm3d.init.
  repeat shape_step Htr.
  change (map (VideoResNet.map_Block VideoResNet.initialize_module) ?l)
    with (initialized l).
  rewrite Stage_value_initialized.
  rewrite (_make_layer_value_shape _ _ _ _ _ _ _ _ _ _ _ _ H1); try lia;
    [|rewrite !reduce_1; eapply batch_norm_side; [exact Htr|lia..]].
  rewrite bind_Ok, !reduce_1, Stage_value_initialized.
  rewrite (_make_layer_value_shape _ _ _ _ _ _ _ _ _ _ _ _ H2); try lia;
    [|eapply batch_norm_side; [exact Htr|lia..]].
  rewrite bind_Ok, Stage_value_initialized.
  rewrite (_make_layer_value_shape _ _ _ _ _ _ _ _ _ _ _ _ H3); try lia;
    [|eapply batch_norm_side; [exact Htr|lia..]].
  rewrite bind_Ok, Stage_value_initialized.
  rewrite (_make_layer_value_shape _ _ _ _ _ _ _ _ _ _ _ _ H4); try lia;
    [|exact Htr].
  rewrite bind_Ok. cbn [VideoResNet.initialize_module Layer_value
    adaptive_avg_pool3d flatten ShapeOps].
  unfold adaptive_avg_pool3d_shape.
  pose proof (block_expansion_positive block).
  rewrite decide_True by lia. rewrite bind_Ok.
  by destruct block.
Qed.

(** ** What a forward pass leaves of the store *)

Section Fresh.
Context {T : Type} `{!TensorOps T}.
Variable training : bool.
Implicit Types (h : list T) (x y : ref) (v : T).





End Fresh.

(** ** When the constructors return *)

Lemma mapR_const_Ok {A B} (y : B) (xs : list A) :
  mapR (λ _, Ok y) xs = Ok (replicate (length xs) y).
Proof.
  induction xs as [|x xs IH]; [done|]. cbn [mapR]. rewrite bind_Ok, IH. done.
Qed.

Lemma mapR_const_Raise {A B} (e : Error) (x : A) (xs : list A) :
  mapR (λ _, Raise e : Result B) (x :: xs) = Raise e.
Proof. done. Qed.

Lemma block_init_cases block inplanes planes conv_builder stride downsample :
  (inplanes * 3 * 3 + 3 * planes ≠ 0 →
   ∃ m, block_init block inplanes planes conv_builder stride downsample = Ok m) ∧
  (inplanes * 3 * 3 + 3 * planes = 0 →
   block_init block inplanes planes conv_builder stride downsample
   = Raise ZeroDivisionError).
Proof.
  split; intros Hden; destruct block; cbn [block_init];
    unfold BasicBlock.init, Bottleneck.init, BasicBlock.midplanes,
      Bottleneck.midplanes, floordiv.
  - rewrite decide_False by done. eexists. reflexivity.
  - rewrite decide_False by done. eexists. reflexivity.
  - by rewrite decide_True.
  - by rewrite decide_True.
Qed.

Lemma expansion_denominator block planes :
  planes * block_expansion block * 3 * 3 + 3 * planes = 0 ↔ planes = 0.
Proof. destruct block; unfold block_expansion, BasicBlock.expansion,
  Bottleneck.expansion; lia. Qed.

(** For the plane counts of the four stages [_make_layer] never raises. *)
Lemma _make_layer_Ok block conv_builder planes blocks stride inplanes :
  0 < planes → 0 ≤ inplanes →
  ∃ layers,
    VideoResNet._make_layer block conv_builder planes blocks stride inplanes
      = Ok (layers, planes * block_expansion block) ∧
    length layers = Z.to_nat (Z.max 1 blocks).
Proof.
  intros Hp Hi. unfold VideoResNet._make_layer.
  set (ds := if bool_decide _ then _ else _).
  destruct (proj1 (block_init_cases block inplanes planes conv_builder stride ds))
    as [first ->]; [lia|].
  destruct (proj1 (block_init_cases block (planes * block_expansion block)
                     planes conv_builder 1 None)) as [m ->].
  { rewrite expansion_denominator. lia. }
  rewrite bind_Ok, mapR_const_Ok, bind_Ok. eexists. split; [reflexivity|].
  cbn [length]. unfold range. rewrite length_replicate, length_seqZ. lia.
Qed.



Lemma length_initialized (ms : list Block) : length (initialized ms) = length ms.
Proof. unfold initialized. apply length_map. Qed.

Lemma init_four block c1 c2 c3 c4 cms n1 n2 n3 n4 ns stem num_classes :
  ∃ l1 l2 l3 l4,
    VideoResNet._make_layer block c1 64 n1 1 64
      = Ok (l1, 64 * block_expansion block) ∧
    VideoResNet._make_layer block c2 128 n2 2 (64 * block_expansion block)
      = Ok (l2, 128 * block_expansion block) ∧
    VideoResNet._make_layer block c3 192 n3 2 (128 * block_expansion block)
      = Ok (l3, 192 * block_expansion block) ∧
    VideoResNet._make_layer block c4 256 n4 2 (192 * block_expansion block)
      = Ok (l4, 256 * block_expansion block) ∧
    length l1 = Z.to_nat (Z.max 1 n1) ∧ length l2 = Z.to_nat (Z.max 1 n2) ∧
    length l3 = Z.to_nat (Z.max 1 n3) ∧ length l4 = Z.to_nat (Z.max 1 n4) ∧
    VideoResNet.init block (c1 :: c2 :: c3 :: c4 :: cms)
      (n1 :: n2 :: n3 :: n4 :: ns) stem num_classes false
    = Ok (VideoResNet._initialize_weights
            {| VideoResNet.inplanes := 256 * block_expansion block;
               VideoResNet.stem := stem tt;
               VideoResNet.layer1 := l1; VideoResNet.layer2 := l2;
               VideoResNet.layer3 := l3; VideoResNet.layer4 := l4;
               VideoResNet.avgpool := LAdaptiveAvgPool3d (1, 1, 1) |}).
Proof.
  pose proof (block_expansion_positive block) as He.
  destruct (_make_layer_Ok block c1 64 n1 1 64) as (l1 & H1 & Hl1); [lia..|].
  destruct (_make_layer_Ok block c2 128 n2 2 (64 * block_expansion block))
    as (l2 & H2 & Hl2); [lia..|].
  destruct (_make_layer_Ok block c3 192 n3 2 (128 * block_expansion block))
    as (l3 & H3 & Hl3); [lia..|].
  destruct (_make_layer_Ok block c4 256 n4 2 (192 * block_expansion block))
    as (l4 & H4 & Hl4); [lia..|].
  exists l1, l2, l3, l4. do 8 (split; [done|]).
  unfold VideoResNet.init, index. cbn [lookup list_lookup].
  rewrite !bind_Ok, H1. rewrite !bind_Ok, H2. rewrite !bind_Ok, H3.
  rewrite !bind_Ok, H4. reflexivity.
Qed.

(** X2: [__init__] without [zero_init_residual] returns a network for every
    block class, every four convolution builders, every four block counts
    and every stem; entries of [conv_makers] and [layers] after the fourth
    are not read; stage k has [layers[k]] blocks, one if that number is less
    than 1, and the running channel count ends at [256 * expansion]. *)
Theorem init_returns (block : BlockClass) (c1 c2 c3 c4 : ConvBuilder)
    (cms : list ConvBuilder) (n1 n2 n3 n4 : Z) (ns : list Z)
    (stem : unit → Sequential) (num_classes : Z) :
  ∃ net,
    VideoResNet.init block (c1 :: c2 :: c3 :: c4 :: cms)
      (n1 :: n2 :: n3 :: n4 :: ns) stem num_classes false = Ok net ∧
    VideoResNet.init block [c1; c2; c3; c4] [n1; n2; n3; n4] stem num_classes false
      = Ok net ∧
    length (VideoResNet.layer1 net) = Z.to_nat (Z.max 1 n1) ∧
    length (VideoResNet.layer2 net) = Z.to_nat (Z.max 1 n2) ∧
    length (VideoResNet.layer3 net) = Z.to_nat (Z.max 1 n3) ∧
    length (VideoResNet.layer4 net) = Z.to_nat (Z.max 1 n4) ∧
    VideoResNet.inplanes net = 256 * block_expansion block.
Proof.
  destruct (init_four block c1 c2 c3 c4 cms n1 n2 n3 n4 ns stem num_classes)
    as (l1 & l2 & l3 & l4 & H1 & H2 & H3 & H4 & Hl1 & Hl2 & Hl3 & Hl4 & Hnet).
  destruct (init_four block c1 c2 c3 c4 [] n1 n2 n3 n4 [] stem num_classes)
    as (l1' & l2' & l3' & l4' & H1' & H2' & H3' & H4' & _ & _ & _ & _ & Hnet').
  rewrite H1 in H1'. rewrite H2 in H2'. rewrite H3 in H3'. rewrite H4 in H4'.
  injection H1' as <-. injection H2' as <-. injection H3' as <-.
  injection H4' as <-.
  eexists. split; [exact Hnet|]. split; [exact Hnet'|].
  unfold VideoResNet._initialize_weights, VideoResNet.map_modules.
  cbn [VideoResNet.layer1 VideoResNet.layer2 VideoResNet.layer3
       VideoResNet.layer4 VideoResNet.inplanes].
  rewrite !length_map. done.
Qed.

Lemma init_short block conv_makers layers stem num_classes :
  (length conv_makers < 4)%nat ∨ (length layers < 4)%nat →
  VideoResNet.init block conv_makers layers stem num_classes false
  = Raise IndexError.
Proof.
  pose proof (block_expansion_positive block) as He.
  intros Hshort. unfold VideoResNet.init, index.
  destruct conv_makers as [|c1 cms]; [done|]. cbn [lookup list_lookup].
  rewrite bind_Ok.
  destruct layers as [|n1 ns]; [done|]. cbn [lookup list_lookup].
  rewrite bind_Ok.
  destruct (_make_layer_Ok block c1 64 n1 1 64) as (l1 & -> & _); [lia..|].
  rewrite bind_Ok.
  destruct cms as [|c2 cms]; [done|]. cbn [lookup list_lookup].
  rewrite bind_Ok.
  destruct ns as [|n2 ns]; [done|]. cbn [lookup list_lookup].
  rewrite bind_Ok.
  destruct (_make_layer_Ok block c2 128 n2 2 (64 * block_expansion block))
    as (l2 & -> & _); [lia..|].
  rewrite bind_Ok.
  destruct cms as [|c3 cms]; [done|]. cbn [lookup list_lookup].
  rewrite bind_Ok.
  destruct ns as [|n3 ns]; [done|]. cbn [lookup list_lookup].
  rewrite bind_Ok.
  destruct (_make_layer_Ok block c3 192 n3 2 (128 * block_expansion block))
    as (l3 & -> & _); [lia..|].
  rewrite bind_Ok.
  destruct cms as [|c4 cms]; [done|]. cbn [lookup list_lookup].
  rewrite bind_Ok.
  destruct ns as [|n4 ns]; [done|].
  cbn [length] in Hshort. lia.
Qed.

(** X3: with fewer than four convolution builders or fewer than four block
    counts [__init__] raises IndexError, with or without
    [zero_init_residual]. *)
Theorem init_IndexError (block : BlockClass) (conv_makers : list ConvBuilder)
    (layers : list Z) (stem : unit → Sequential) (num_classes : Z)
    (zero_init_residual : bool) :
  (length conv_makers < 4)%nat ∨ (length layers < 4)%nat →
  VideoResNet.init block conv_makers layers stem num_classes zero_init_residual
  = Raise IndexError.
Proof.
  intros Hshort. rewrite init_zero_init_residual.
  by rewrite init_short.
Qed.

Lemma init_IndexError_witness :
  VideoResNet.init BasicBlockClass (replicate 4 Conv3DSimple.builder) [2; 2; 2]
    BasicStem.init 2 true = Raise IndexError.
Proof. apply init_IndexError. right. cbn. lia. Defined.

(** ** [zero_init_residual] *)

Lemma mapR_zero_init_Basic (ms : list Block) :
  forallb is_Basic ms → mapR VideoResNet.zero_init_module ms = Ok ms.
Proof.
  induction ms as [|m ms IH]; [done|]. cbn [forallb]. intros [Hm Hms]%andb_True.
  destruct m as [b|b]; [|done]. cbn [mapR VideoResNet.zero_init_module].
  rewrite bind_Ok, IH by done. done.
Qed.

Lemma _make_layer_is_Basic block conv_builder planes blocks stride inplanes
    layers inplanes' :
  VideoResNet._make_layer block conv_builder planes blocks stride inplanes
    = Ok (layers, inplanes') →
  match block with
  | BasicBlockClass => forallb is_Basic (initialized layers) = true
  | BottleneckClass => ∃ b rest, initialized layers = Bottle b :: rest
  end.
Proof.
  intros Hl.
  apply _make_layer_inv in Hl as (_ & first & rest & -> & Hfirst & _ & Hrest).
  destruct block; cbn [block_init] in *.
  - apply fmap_Ok_inv in Hfirst as (b & _ & ->).
    cbn [initialized map forallb VideoResNet.map_Block is_Basic andb].
    induction rest as [|m rest IH]; [done|].
    cbn [map forallb].
    destruct (fmap_Ok_inv _ _ _ (Hrest m ltac:(by left))) as (b' & _ & ->).
    cbn [VideoResNet.map_Block is_Basic andb].
    apply IH. intros m' Hm'. apply Hrest. by right.
  - apply fmap_Ok_inv in Hfirst as (b & _ & ->).
    cbn [initialized map VideoResNet.map_Block]. eauto.
Qed.

(** X4: [zero_init_residual] does nothing for a BasicBlock network and
    cannot be used for any other: [__init__] with the option returns a
    network exactly when the block class is BasicBlock and [__init__]
    without the option returns it, and it is then the same network, every
    normalisation scale still 1. *)
Theorem zero_init_residual_BasicBlock (block : BlockClass)
    (conv_makers : list ConvBuilder) (layers : list Z)
    (stem : unit → Sequential) (num_classes : Z) (net : VideoResNet.t) :
  VideoResNet.init block conv_makers layers stem num_classes true = Ok net ↔
  block = BasicBlockClass ∧
  VideoResNet.init block conv_makers layers stem num_classes false = Ok net.
Proof.
  rewrite init_zero_init_residual.
  destruct (VideoResNet.init block conv_makers layers stem num_classes false)
    as [self|e] eqn:Hself; [|split; [done|by intros [_ ?]]].
  rewrite bind_Ok.
  apply VideoResNet_init_inv in Hself
    as (cm1 & cm2 & cm3 & cm4 & n1 & n2 & n3 & n4 & l1 & l2 & l3 & l4
        & i1 & i2 & i3 & i4 & _ & _ & _ & _ & _ & _ & _ & _
        & H1 & H2 & H3 & H4 & ->).
  apply _make_layer_is_Basic in H1, H2, H3, H4.
  unfold VideoResNet.zero_init_residual_loop, VideoResNet._initialize_weights,
    VideoResNet.map_modules.
  cbn [VideoResNet.layer1 VideoResNet.layer2 VideoResNet.layer3
       VideoResNet.layer4 VideoResNet.inplanes VideoResNet.stem
       VideoResNet.avgpool].
  change (map (VideoResNet.map_Block VideoResNet.initialize_module) ?l)
    with (initialized l).
  destruct block.
  - rewrite !mapR_zero_init_Basic by (by rewrite ?H1, ?H2, ?H3, ?H4).
    rewrite !bind_Ok. split; [by intros [= <-]|by intros [_ [= <-]]].
  - split; [|by intros [? _]]. intros Hloop.
    apply bind_Ok_inv in Hloop as (l1' & Hl1 & _).
    apply mapR_zero_init_inv in Hl1 as [_ Hno].
    destruct H1 as (b & rest & Hb). rewrite Hb in Hno.
    exfalso. eapply Hno. by left.
Qed.

Lemma zero_init_residual_BasicBlock_witness :
  ∃ net,
    VideoResNet.init BasicBlockClass (replicate 4 Conv3DSimple.builder)
      [1; 1; 1; 1] BasicStem.init 2 true = Ok net ∧
    VideoResNet.init BasicBlockClass (replicate 4 Conv3DSimple.builder)
      [1; 1; 1; 1] BasicStem.init 2 false = Ok net.
Proof.
  eexists. split; [vm_compute; reflexivity|].
  eapply (proj1 (zero_init_residual_BasicBlock _ _ _ _ _ _)).
  vm_compute. reflexivity.
Defined.

(** ** The entry point *)

(** X5: [r3d_18] returns a network for every choice of [pretrained],
    [progress], [num_classes] and [zero_init_residual], and it is the same
    network for all of them; a keyword argument [block], [conv_makers],
    [layers] or [stem] is a TypeError, so that no call of [r3d_18] builds
    anything else. *)
Theorem r3d_18_returns (pretrained progress : bool) (kwargs : Kwargs) :
  (kw_block kwargs = None ∧ kw_conv_makers kwargs = None ∧
   kw_layers kwargs = None ∧ kw_stem kwargs = None →
   ∃ net, r3d_18 pretrained progress kwargs = Ok net ∧
          r3d_18 false true no_kwargs = Ok net) ∧
  (is_Some (kw_block kwargs) ∨ is_Some (kw_conv_makers kwargs) ∨
   is_Some (kw_layers kwargs) ∨ is_Some (kw_stem kwargs) →
   r3d_18 pretrained progress kwargs = Raise TypeError).
Proof.
  unfold r3d_18. destruct kwargs as [b c l s nc z]; cbn. split.
  - intros (-> & -> & -> & ->).
    destruct z as [[]|]; eexists; (split; [|vm_compute; reflexivity]);
      vm_compute; reflexivity.
  - intros Hsome. destruct b, c, l, s; try done.
    destruct Hsome as [[? [=]]|[[? [=]]|[[? [=]]|[? [=]]]]].
Qed.

Lemma r3d_18_returns_witness :
  ∃ net,
    r3d_18 true true
      {| kw_block := None; kw_conv_makers := None; kw_layers := None;
         kw_stem := None; kw_num_classes := Some 400;
         kw_zero_init_residual := Some true |} = Ok net ∧
    r3d_18 false true no_kwargs = Ok net.
Proof.
  apply (proj1 (r3d_18_returns true true
    {| kw_block := None; kw_conv_makers := None; kw_layers := None;
       kw_stem := None; kw_num_classes := Some 400;
       kw_zero_init_residual := Some true |})).
  repeat split.
Defined.

(** ** Parameters after construction *)

(** X6: in a network that [__init__] returned, whatever the block class,
    the builders, the block counts and the stem, no parameter is left as the
    layer's own constructor filled it: every convolution has the fan-out
    Kaiming-normal weight for ReLU and no bias or a zero bias, every
    normalisation has scale 1 and shift 0. *)
Theorem init_parameters (block : BlockClass) (conv_makers : list ConvBuilder)
    (layers : list Z) (stem : unit → Sequential) (num_classes : Z)
    (zero_init_residual : bool) (net : VideoResNet.t) (l : Layer) :
  VideoResNet.init block conv_makers layers stem num_classes zero_init_residual
    = Ok net →
  VideoResNet.MLayer l ∈ VideoResNet.modules net →
  (FrameworkDefault ∉ Layer_parameters l) ∧
  match l with
  | LConv c => Conv3d.weight c = KaimingNormal "fan_out" "relu" ∧
               (Conv3d.bias c = None ∨ Conv3d.bias c = Some (Constant 0))
  | LBatchNorm b => BatchNorm3d.weight b = Constant 1 ∧
                    BatchNorm3d.bias b = Constant 0
  | LReLU _ | LAdaptiveAvgPool3d _ => True
  end.
Proof.
  intros Hnet Hl.
  pose proof (init_modules_initialized _ _ _ _ _ _ _ _ Hnet Hl) as Hinit.
  split; [|exact Hinit].
  destruct l as [c|b|?|?]; cbn [Layer_parameters].
  - destruct Hinit as [Hw [Hb|Hb]]; rewrite Hw, Hb.
    + by intros [=]%list_elem_of_singleton.
    + intros [[=]|[=]%list_elem_of_singleton]%elem_of_cons.
  - destruct Hinit as [-> ->].
    intros [[=]|[=]%list_elem_of_singleton]%elem_of_cons.
  - by intros ?%elem_of_nil.
  - by intros ?%elem_of_nil.
Qed.

Lemma init_parameters_witness :
  ∃ net c,
    VideoResNet.init BottleneckClass (replicate 4 Conv3DSimple.builder)
      [1; 1; 1; 1] BasicStem.init 2 false = Ok net ∧
    VideoResNet.modules net !! 2%nat = Some (VideoResNet.MLayer (LConv c)) ∧
    Conv3d.weight c = KaimingNormal "fan_out" "relu".
Proof.
  do 2 eexists. split; [vm_compute; reflexivity|].
  split; [vm_compute; reflexivity|].
  refine (proj1 (proj2 (init_parameters BottleneckClass
                   (replicate 4 Conv3DSimple.builder) [1; 1; 1; 1]
                   BasicStem.init 2 false _ (LConv _) _ _))).
  - vm_compute. reflexivity.
  - apply list_elem_of_lookup. exists 2%nat. vm_compute. reflexivity.
Defined.

(** ** Extents and stores: the general statements *)



(** X7: a network built from either block class with Conv3DSimple and the
    basic stem, with any block counts, maps an input of shape
    (N, 1, D, H, W) with positive extents to shape (N, 256 * expansion),
    that is (N, 256) with BasicBlock and (N, 1024) with Bottleneck, provided
    that in training mode the last stage is left with more than one value per
    channel. *)
Theorem VideoResNet_forward_shape (training : bool) (block : BlockClass)
    (layers : list Z) (num_classes : Z) (zero_init_residual : bool)
    (net : VideoResNet.t) (N D H W : Z) :
  VideoResNet.init block (replicate 4 Conv3DSimple.builder) layers
    BasicStem.init num_classes zero_init_residual = Ok net →
  1 ≤ N → 1 ≤ D → 1 ≤ H → 1 ≤ W →
  training = false ∨ N * (halve4 D * halve4 H * halve4 W) ≠ 1 →
  forward_shape training net [N; 1; D; H; W]
  = Ok [N; 256 * block_expansion block].
Proof.
  intros Hnet HN HD HH HW Htr. unfold forward_shape.
  rewrite run_on_forward by (by eapply init_keeps_input).
  by eapply VideoResNet_value_shape.
Qed.

Lemma VideoResNet_forward_shape_witness :
  ∃ net,
    VideoResNet.init BottleneckClass (replicate 4 Conv3DSimple.builder)
      [3; 4; 6; 3] BasicStem.init 2 false = Ok net ∧
    forward_shape true net [1; 1; 17; 1; 1] = Ok [1; 1024].
Proof.
  eexists. split; [vm_compute; reflexivity|].
  refine (VideoResNet_forward_shape true BottleneckClass [3; 4; 6; 3] 2 false
            _ 1 17 1 1 _ _ _ _ _ _).
  - vm_compute. reflexivity.
  - lia.
  - lia.
  - lia.
  - lia.
  - right. by vm_compute.
Defined.







(** ** Why the downsample path is there *)




(** ** Every 5-D input of the network [r3d_18] builds *)

Lemma batch_norm_shape_single ch wt bs n d h w :
  n * (d * h * w) = 1 →
  batch_norm_shape true (BatchNorm3d.mk ch wt bs) [n; ch; d; h; w]
  = Raise ValueError.
Proof.
  intros Hone. unfold batch_norm_shape.
  by rewrite bool_decide_eq_true_2.
Qed.

(** One step of evaluating a forward pass in training mode when it is not
    known which normalisation, if any, rejects its input. *)
Ltac training_step Hone :=
  first
  [ rewrite conv3d_shape_stem by lia
  | rewrite conv3d_shape_3x3 by lia
  | rewrite conv3d_shape_1x1 by lia
  | match goal with
    | |- context [batch_norm_shape true (BatchNorm3d.mk ?c _ _) [?n; ?c; ?d; ?h; ?w]] =>
        let Hbn := fresh "Hbn" in
        destruct (decide (n * (d * h * w) = 1)) as [Hbn|Hbn];
        [ rewrite batch_norm_shape_single by exact Hbn; reflexivity
        | first [ exfalso; apply Hbn; exact Hone
                | rewrite batch_norm_shape_ok by (right; exact Hbn) ] ]
    end
  | rewrite add__shape_same
  | rewrite bind_Ok
  | rewrite reduce_1
  | progress unfold BasicBlock_value
  | progress cbn [Sequential_value Stage_value Block_value Layer_value
      residual_value BasicBlock.conv1 BasicBlock.conv2 BasicBlock.relu
      BasicBlock.downsample conv3d batch_norm relu_value add_
      adaptive_avg_pool3d flatten ShapeOps id] ].

Lemma r3d_18_value_single pretrained progress kwargs net N D H W :
  r3d_18 pretrained progress kwargs = Ok net →
  1 ≤ D → 1 ≤ H → 1 ≤ W →
  N * (halve4 D * halve4 H * halve4 W) = 1 →
  VideoResNet_value true net [N; 1; D; H; W] = Raise ValueError.
Proof.
  intros Hnet HD HH HW Hone. apply r3d_18_Ok_inv in Hnet.
  unfold halve4, halve in Hone.
  pose proof (reduce_2_bounds D HD) as HD1.
  pose proof (reduce_2_bounds _ (proj1 HD1)) as HD2.
  pose proof (reduce_2_bounds _ (proj1 HD2)) as HD3.
  pose proof (reduce_2_bounds H HH) as HH1.
  pose proof (reduce_2_bounds _ (proj1 HH1)) as HH2.
  pose proof (reduce_2_bounds _ (proj1 HH2)) as HH3.
  pose proof (reduce_2_bounds W HW) as HW1.
  pose proof (reduce_2_bounds _ (proj1 HW1)) as HW2.
  pose proof (reduce_2_bounds _ (proj1 HW2)) as HW3.
  vm_compute in Hnet. injection Hnet as <-.
  unfold VideoResNet_value.
  cbn [VideoResNet.stem VideoResNet.layer1 VideoResNet.layer2
       VideoResNet.layer3 VideoResNet.layer4 VideoResNet.avgpool].
  repeat training_step Hone.
Qed.

Lemma r3d_18_value_rejects training pretrained progress kwargs net N C D H W :
  r3d_18 pretrained progress kwargs = Ok net →
  ¬ (C = 1 ∧ 1 ≤ D ∧ 1 ≤ H ∧ 1 ≤ W) →
  VideoResNet_value training net [N; C; D; H; W] = Raise RuntimeError.
Proof.
  intros Hnet Hbad. apply r3d_18_Ok_inv in Hnet.
  vm_compute in Hnet. injection Hnet as <-.
  unfold VideoResNet_value.
  cbn [VideoResNet.stem Sequential_value Layer_value conv3d ShapeOps].
  unfold conv3d_shape, conv_extents, conv_extent.
  cbn [Conv3d.in_channels Conv3d.kernel_size Conv3d.stride Conv3d.padding].
  destruct (decide (C = 1)); [|done].
  rewrite (decide_False (P := 2 ≤ 0)) by lia.
  destruct (decide (D + 2 * 3 < 7)); [done|].
  destruct (decide (H + 2 * 3 < 7)); [done|].
  destruct (decide (W + 2 * 3 < 7)); [done|]. lia.
Qed.

(** X12: what the network [r3d_18] builds does on every 5-D input with a
    batch of at least one sample: an input with a channel count other than 1
    or with an extent below 1 raises RuntimeError in the stem; in training
    mode a single sample that the four stride-2 layers reduce to one value
    per channel raises ValueError in a normalisation; every other input
    gives shape (N, 256). *)
Theorem r3d_18_forward_cases (pretrained progress training : bool)
    (kwargs : Kwargs) (net : VideoResNet.t) (N C D H W : Z) :
  r3d_18 pretrained progress kwargs = Ok net →
  1 ≤ N →
  forward_shape training net [N; C; D; H; W] =
  if decide (C = 1 ∧ 1 ≤ D ∧ 1 ≤ H ∧ 1 ≤ W) then
    if training && bool_decide (N * (halve4 D * halve4 H * halve4 W) = 1)
    then Raise ValueError
    else Ok [N; 256]
  else Raise RuntimeError.
Proof.
  intros Hnet HN. unfold forward_shape.
  rewrite run_on_forward by (by eapply r3d_18_keeps_input).
  destruct (decide (C = 1 ∧ 1 ≤ D ∧ 1 ≤ H ∧ 1 ≤ W)) as [(-> & HD & HH & HW)|Hbad];
    [|by eapply r3d_18_value_rejects].
  destruct training; cbn [andb].
  - destruct (bool_decide (N * (halve4 D * halve4 H * halve4 W) = 1)) eqn:Hone.
    + apply bool_decide_eq_true_1 in Hone. by eapply r3d_18_value_single.
    + apply bool_decide_eq_false_1 in Hone.
      eapply r3d_18_value_shape; eauto.
  - eapply r3d_18_value_shape; eauto.
Qed.

Lemma r3d_18_forward_cases_witness :
  ∃ net,
    r3d_18 false true no_kwargs = Ok net ∧
    forward_shape true net [1; 1; 16; 16; 16] = Raise ValueError ∧
    forward_shape true net [1; 3; 32; 32; 32] = Raise RuntimeError ∧
    forward_shape false net [1; 1; 16; 16; 16] = Ok [1; 256].
Proof.
  eexists. split; [vm_compute; reflexivity|].
  split; [|split].
  - refine (r3d_18_forward_cases false true true no_kwargs _ 1 1 16 16 16 _ _).
    + vm_compute. reflexivity.
    + lia.
  - refine (r3d_18_forward_cases false true true no_kwargs _ 1 3 32 32 32 _ _).
    + vm_compute. reflexivity.
    + lia.
  - refine (r3d_18_forward_cases false true false no_kwargs _ 1 1 16 16 16 _ _).
    + vm_compute. reflexivity.
    + lia.
Defined.
